(** * f8_catbox_uploader: snip a screen region, upload it, copy the link

    A shallow embedding of [f8_catbox_uploader.py].  The program is a
    linear chain of side effects; the embedding keeps the code's own
    functions ([SnippingTool], [take_snip], [upload_to_catbox],
    [on_hotkey]) and threads an explicit [world] (files of the
    screenshots directory, clipboard, log) through them.  Everything the
    program obtains from its collaborators (Tk pointer events, the screen
    grabber, the clock, the HTTP endpoint, the clipboard, the file
    system calls that may fail) is read from an [env] record, so every
    function below is executable. *)

From Stdlib Require Import ZArith NArith List String Ascii Decimal Lia Bool.
From Stdlib Require Import DecimalPos.
From stdpp Require Import base option list gmap.

Local Open Scope Z_scope.

(** ** Python values *)

(** A Python [str] is a sequence of Unicode code points. *)
Abbreviation str := (list N).

(** ASCII literals of the source, as code points. *)
Definition lit (s : string) : str :=
  List.map N_of_ascii (list_ascii_of_string s).

Module Str.

(** [str.startswith(prefix)] *)
Fixpoint startswith (s prefix : str) : bool :=
  match prefix, s with
  | [], _ => true
  | _ :: _, [] => false
  | p :: prefix', c :: s' => N.eqb c p && startswith s' prefix'
  end.

(** [str.isspace] on one code point: CPython's [_PyUnicode_IsWhitespace]. *)
Definition isspace (c : N) : bool :=
  ((9 <=? c) && (c <=? 13) || (28 <=? c) && (c <=? 32)
   || (c =? 133) || (c =? 160) || (c =? 5760)
   || (8192 <=? c) && (c <=? 8202)
   || (c =? 8232) || (c =? 8233) || (c =? 8239) || (c =? 8287)
   || (c =? 12288))%N.

(** [str.lstrip()] *)
Fixpoint lstrip (s : str) : str :=
  match s with
  | [] => []
  | c :: s' => if isspace c then lstrip s' else s
  end.

(** [str.rstrip()]: drop the maximal whitespace suffix. *)
Fixpoint rstrip (s : str) : str :=
  match s with
  | [] => []
  | c :: s' =>
      match rstrip s' with
      | [] => if isspace c then [] else [c]
      | r => c :: r
      end
  end.

(** [str.strip()] *)
Definition strip (s : str) : str := rstrip (lstrip s).

(** The whitespace-only strings. *)
Definition all_space (s : str) : bool := forallb isspace s.

(** Last code point, if any. *)
Definition last_char (s : str) : option N := last s.

(** Code point of a decimal digit. *)
Definition digit (d : N) : N := (48 + d)%N.

Fixpoint of_uint (u : Decimal.uint) : str :=
  match u with
  | Nil => []
  | D0 u => digit 0 :: of_uint u
  | D1 u => digit 1 :: of_uint u
  | D2 u => digit 2 :: of_uint u
  | D3 u => digit 3 :: of_uint u
  | D4 u => digit 4 :: of_uint u
  | D5 u => digit 5 :: of_uint u
  | D6 u => digit 6 :: of_uint u
  | D7 u => digit 7 :: of_uint u
  | D8 u => digit 8 :: of_uint u
  | D9 u => digit 9 :: of_uint u
  end.

(** [str(n)] / [f"{n}"] for a Python [int]. *)
Definition of_Z (z : Z) : str :=
  match z with
  | Z0 => lit "0"
  | Zpos p => of_uint (Pos.to_uint p)
  | Zneg p => lit "-" ++ of_uint (Pos.to_uint p)
  end.

(** [w] decimal digits of [n], most significant first: the zero-padded
    fields of [strftime] ([%Y] on four digits, [%m %d %H %M %S] on two). *)
Fixpoint zero_padded (w : nat) (n : N) : str :=
  match w with
  | O => []
  | S w' => zero_padded w' (n / 10)%N ++ [digit (n mod 10)%N]
  end.

Definition is_digit (c : N) : bool := ((48 <=? c) && (c <=? 57))%N.

(** [s] occurs in [t] as a contiguous substring. *)
Definition contains (t s : str) : Prop := exists pre post, t = pre ++ s ++ post.

End Str.

(** ** Exceptions and results *)

(** The classes of the exceptions the program and its collaborators
    raise.  All of them derive from Python's [Exception], the class the
    two [except Exception] clauses of [on_hotkey] catch. *)
Inductive exn_class :=
| RuntimeError          (* raised by upload_to_catbox itself *)
| OSError               (* open, os.remove, Image.save *)
| ValueError
| SystemError
| TclError              (* tkinter *)
| RequestException      (* requests.post *)
| PyperclipException.   (* pyperclip.copy *)

Record exn := Exn { exn_cls : exn_class; exn_msg : str }.

Inductive result (A : Type) :=
| Ok (a : A)
| Raise (e : exn).
Arguments Ok {A} a.
Arguments Raise {A} e.

Definition is_ok {A} (r : result A) : bool :=
  match r with Ok _ => true | Raise _ => false end.

(** ** The world the program acts on *)

(** A PIL image: its size and its pixel data. *)
Record image := Image { im_size : Z * Z; im_data : list N }.

(** Content of a file of the screenshots directory: a complete PNG, or
    what an interrupted [Image.save] left behind. *)
Inductive file :=
| PngFile (im : image)
| PartialFile.

Inductive level := INFO | ERROR.

(** One line of the log; [logger.exception] attaches the exception. *)
Record log_record := LogRecord { lvl : level; msg : str; exc_info : option exn }.

Record world := World {
  fs : gmap str file;          (* path -> content *)
  clipboard : str;
  log : list log_record        (* oldest first; what the handlers have
                                  written to LOG_FILE and to stdout *)
}.

(** Bounding box [(x1, y1, x2, y2)] handed to [ImageGrab.grab]. *)
Abbreviation bbox := (Z * Z * Z * Z)%type.

(** Pointer events bound in [SnippingTool.__init__]. *)
Inductive event :=
| ButtonPress (x y : Z)       (* <ButtonPress-1> *)
| B1Motion (x y : Z)          (* <B1-Motion> *)
| ButtonRelease (x y : Z).    (* <ButtonRelease-1> *)

(** [datetime.now()]: a naive local time. *)
Record datetime := DateTime {
  year : N; month : N; day : N;
  hour : N; minute : N; second : N;
  microsecond : N
}.

(** The ranges of the fields of a clock reading.  (A [datetime] allows
    years from 1; below 1000 the platforms differ on the padding of [%Y].) *)
Definition valid_datetime (d : datetime) : Prop :=
  (1000 <= year d <= 9999 /\ 1 <= month d <= 12 /\ 1 <= day d <= 31 /\
   hour d <= 23 /\ minute d <= 59 /\ second d <= 59 /\
   microsecond d <= 999999)%N.

(** [requests.Response], the three attributes the code reads. *)
Record response := Response { status_code : Z; ok : bool; text : str }.

(** Outcome of [img.save(path)]: the file is written, or the call
    raises; a failing save may already have created the file. *)
Inductive save_outcome :=
| SaveOk
| SaveFail (e : exn) (left_behind : bool).

(** [os.name], which fixes the path separator [os.sep]. *)
Inductive os_name := posix | nt.

Definition os_sep (o : os_name) : N :=
  match o with
  | posix => 47   (* / *)
  | nt => 92      (* \ *)
  end%N.

(** Outcome of [pyperclip.copy(text)]: the clipboard holds the text, or
    the call raises; a failing copy may already have replaced what the
    clipboard held ([left] is then the new content). *)
Inductive copy_outcome :=
| CopyOk
| CopyFail (e : exn) (left : option str).

(** What one run obtains from outside the program. *)
Record env := Env {
  home : str;                               (* os.path.expanduser("~") *)
  os : os_name;                             (* os.name *)
  tk_init : option exn;                     (* tk.Tk() and the window setup may raise *)
  tk_events : list event;                   (* pointer events delivered by mainloop *)
  grab : bbox -> result image;              (* ImageGrab.grab(bbox=...) *)
  now : datetime;                           (* datetime.now() *)
  save : image -> str -> save_outcome;      (* img.save(path) *)
  open_rb : str -> option exn;              (* open(path, "rb") on an existing file *)
  post : str -> file -> result response;    (* requests.post(url, ..., timeout=30) *)
  copy : str -> copy_outcome;               (* pyperclip.copy(text) *)
  remove : str -> option exn                (* os.remove(path) on an existing file *)
}.

(** ** State and exception monad *)

Definition M (S A : Type) : Type := S -> result A * S.

Definition ret {S A} (a : A) : M S A := fun s => (Ok a, s).

Definition raise {S A} (e : exn) : M S A := fun s => (Raise e, s).

Definition bind {S A B} (m : M S A) (k : A -> M S B) : M S B :=
  fun s =>
    match m s with
    | (Ok a, s') => k a s'
    | (Raise e, s') => (Raise e, s')
    end.

Notation "'let*' x := m 'in' k" := (bind m (fun x => k))
  (at level 10, x name, m at level 100, k at level 200).
Notation "m >> k" := (bind m (fun _ => k))
  (at level 100, k at level 200, right associativity).

(** [try: m  except Exception as e: h e] *)
Definition try_except {S A} (m : M S A) (h : exn -> M S A) : M S A :=
  fun s =>
    match m s with
    | (Ok a, s') => (Ok a, s')
    | (Raise e, s') => h e s'
    end.

(** [try: m  finally: f].  The [finally] block always runs; when it
    raises, its exception replaces the outcome of [m]. *)
Definition try_finally {S A} (m : M S A) (f : M S unit) : M S A :=
  fun s =>
    match m s with
    | (r, s') =>
        match f s' with
        | (Ok _, s'') => (r, s'')
        | (Raise e, s'') => (Raise e, s'')
        end
    end.

(** A world computation run inside a frame with a local variable. *)
Definition lift {L A} (m : M world A) : M (L * world) A :=
  fun s =>
    match m (snd s) with
    | (r, w') => (r, (fst s, w'))
    end.

Definition get_local {L} : M (L * world) L := fun s => (Ok (fst s), s).

Definition set_local {L} (v : L) : M (L * world) unit :=
  fun s => (Ok tt, (v, snd s)).

(** ** Logging *)

Definition emit (r : log_record) (w : world) : world :=
  World (fs w) (clipboard w) (log w ++ [r]).

(** [logger.info(m)] *)
Definition logger_info (m : str) : M world unit :=
  fun w => (Ok tt, emit (LogRecord INFO m None) w).

(** [logger.exception(m)] inside a handler for [e]. *)
Definition logger_exception (m : str) (e : exn) : M world unit :=
  fun w => (Ok tt, emit (LogRecord ERROR m (Some e)) w).

(** ** Configuration *)

Definition CATBOX_API : str := lit "https://catbox.moe/user/api.php".

(** [os.path.join(a, b)] for a relative component [b]: the separator is
    inserted unless [a] is empty or already ends with it.  This is the
    join of [posixpath]; with the separator of [nt] it is the join of
    [ntpath] unless [a] is a bare drive or ends with [/]. *)
Definition os_path_join (sp : N) (a b : str) : str :=
  match Str.last_char a with
  | None => b
  | Some c => if N.eqb c sp then a ++ b else a ++ sp :: b
  end.

(** [TMP_DIR = os.path.join(os.path.expanduser("~"), "Pictures", "Screenshots")] *)
Definition TMP_DIR (e : env) : str :=
  os_path_join (os_sep (os e))
               (os_path_join (os_sep (os e)) (home e) (lit "Pictures"))
               (lit "Screenshots").

(** ** Snipping tool *)

Record SnippingTool := Tool {
  start_x : Z; start_y : Z; end_x : Z; end_y : Z;
  rect : option bbox;      (* [self.rect] is set; the coordinates last handed
                              to the canvas for that item *)
  destroyed : bool         (* [self.root.destroy()] was called *)
}.

(** State set up by [__init__] before [mainloop] runs. *)
Definition tool_init : SnippingTool := Tool 0 0 0 0 None false.

Definition on_button_press (self : SnippingTool) (x y : Z) : SnippingTool :=
  Tool x y (end_x self) (end_y self) (Some (x, y, x, y)) (destroyed self).

(** Without an item to move, [canvas.coords] fails inside the callback;
    Tk reports the error and the loop goes on. *)
Definition on_move_press (self : SnippingTool) (x y : Z) : SnippingTool :=
  match rect self with
  | Some _ =>
      Tool (start_x self) (start_y self) (end_x self) (end_y self)
           (Some (start_x self, start_y self, x, y)) (destroyed self)
  | None => self
  end.

Definition on_button_release (self : SnippingTool) (x y : Z) : SnippingTool :=
  Tool (start_x self) (start_y self) x y (rect self) true.

Definition dispatch (self : SnippingTool) (ev : event) : SnippingTool :=
  match ev with
  | ButtonPress x y => on_button_press self x y
  | B1Motion x y => on_move_press self x y
  | ButtonRelease x y => on_button_release self x y
  end.

(** [self.root.mainloop()]: events are dispatched until the window is
    destroyed (or no event is left: the window was closed otherwise). *)
Fixpoint mainloop (self : SnippingTool) (evs : list event) : SnippingTool :=
  match evs with
  | [] => self
  | ev :: evs' =>
      if destroyed self then self else mainloop (dispatch self ev) evs'
  end.

(** [SnippingTool()] *)
Definition new_SnippingTool (e : env) : M world SnippingTool :=
  match tk_init e with
  | Some ex => raise ex
  | None => ret (mainloop tool_init (tk_events e))
  end.

(** The box of lines 93-96 of [take_snip]. *)
Definition selection_rect (tool : SnippingTool) : bbox :=
  (Z.min (start_x tool) (end_x tool), Z.min (start_y tool) (end_y tool),
   Z.max (start_x tool) (end_x tool), Z.max (start_y tool) (end_y tool)).

(** ** Capture *)

(** [d.strftime("%Y%m%d_%H%M%S")] *)
Definition strftime (d : datetime) : str :=
  Str.zero_padded 4 (year d) ++ Str.zero_padded 2 (month d)
  ++ Str.zero_padded 2 (day d) ++ lit "_"
  ++ Str.zero_padded 2 (hour d) ++ Str.zero_padded 2 (minute d)
  ++ Str.zero_padded 2 (second d).

Definition snip_filename (d : datetime) : str :=
  lit "snip_" ++ strftime d ++ lit ".png".

Definition snip_path (e : env) : str :=
  os_path_join (os_sep (os e)) (TMP_DIR e) (snip_filename (now e)).

Definition write_file (path : str) (f : file) (w : world) : world :=
  World (<[path := f]> (fs w)) (clipboard w) (log w).

(** [ImageGrab.grab(bbox=box)] *)
Definition ImageGrab_grab (e : env) (box : bbox) : M world image :=
  fun w => (grab e box, w).

(** [img.save(path)] *)
Definition img_save (e : env) (img : image) (path : str) : M world unit :=
  fun w =>
    match save e img path with
    | SaveOk => (Ok tt, write_file path (PngFile img) w)
    | SaveFail ex true => (Raise ex, write_file path PartialFile w)
    | SaveFail ex false => (Raise ex, w)
    end.

(** Lines 98-104 of [take_snip]: grab the box, save, log, return the path. *)
Definition capture (e : env) (box : bbox) : M world str :=
  let* img := ImageGrab_grab e box in
  let path := snip_path e in
  img_save e img path >>
  logger_info (lit "Region snipped and saved to " ++ path) >>
  ret path.

(** [take_snip()] *)
Definition take_snip (e : env) : M world str :=
  let* tool := new_SnippingTool e in
  capture e (selection_rect tool).

(** ** Upload *)

(** [open(filepath, "rb")]; the message of the error is abridged. *)
Definition open_file (e : env) (filepath : str) : M world file :=
  fun w =>
    match fs w !! filepath with
    | None => (Raise (Exn OSError (lit "No such file or directory")), w)
    | Some f =>
        match open_rb e filepath with
        | Some ex => (Raise ex, w)
        | None => (Ok f, w)
        end
    end.

(** [requests.post(CATBOX_API, data=..., files=..., timeout=30)] *)
Definition requests_post (e : env) (url : str) (f : file) : M world response :=
  fun w => (post e url f, w).

(** Message of the error raised on a rejected upload. *)
Definition upload_failed_msg (resp : response) : str :=
  lit "Upload failed (" ++ Str.of_Z (status_code resp) ++ lit "): " ++ text resp.

(** [upload_to_catbox(filepath)] *)
Definition upload_to_catbox (e : env) (filepath : str) : M world str :=
  let* f := open_file e filepath in
  let* resp := requests_post e CATBOX_API f in
  if negb (ok resp) || negb (Str.startswith (text resp) (lit "http")) then
    raise (Exn RuntimeError (upload_failed_msg resp))
  else
    logger_info (lit "Upload successful: " ++ text resp) >>
    ret (Str.strip (text resp)).

(** ** Clipboard and cleanup *)

(** [pyperclip.copy(url)]: the clipboard holds [url] afterwards, or the
    call raises and the clipboard is what the failed call left. *)
Definition pyperclip_copy (e : env) (url : str) : M world unit :=
  fun w =>
    match copy e url with
    | CopyOk => (Ok tt, World (fs w) url (log w))
    | CopyFail ex None => (Raise ex, w)
    | CopyFail ex (Some s) => (Raise ex, World (fs w) s (log w))
    end.

(** [os.path.exists(path)] *)
Definition os_path_exists (path : str) : M world bool :=
  fun w => (Ok (bool_decide (is_Some (fs w !! path))), w).

(** [os.remove(path)] *)
Definition os_remove (e : env) (path : str) : M world unit :=
  fun w =>
    match fs w !! path with
    | None => (Raise (Exn OSError (lit "No such file or directory")), w)
    | Some _ =>
        match remove e path with
        | Some ex => (Raise ex, w)
        | None => (Ok tt, World (delete path (fs w)) (clipboard w) (log w))
        end
    end.

(** ** The hotkey callback *)

(** The [try] block of [on_hotkey]; the local [path] is assigned when
    [take_snip] returns. *)
Definition hotkey_try (e : env) : M (option str * world) unit :=
  let* path := lift (take_snip e) in
  set_local (Some path) >>
  let* url := lift (upload_to_catbox e path) in
  lift (pyperclip_copy e url) >>
  lift (logger_info (lit "Link copied to clipboard.")).

(** The [except Exception] clause. *)
Definition hotkey_except (ex : exn) : M (option str * world) unit :=
  lift (logger_exception (lit "Error during snip+upload:") ex).

(** The [finally] block.  [if path and os.path.exists(path)]: a [path]
    that is [None] or the empty string is false and nothing is looked up. *)
Definition hotkey_finally (e : env) : M (option str * world) unit :=
  let* path := get_local in
  match path with
  | Some ((_ :: _) as p) =>
      let* there := lift (os_path_exists p) in
      if there : bool then
        try_except
          (lift (os_remove e p) >>
           lift (logger_info (lit "Temporary file deleted: " ++ p)))
          (fun ex => lift (logger_exception (lit "Could not delete temp file") ex))
      else ret tt
  | _ => ret tt
  end.

(** [on_hotkey()] *)
Definition on_hotkey (e : env) : M world unit :=
  fun w =>
    match try_finally (try_except (hotkey_try e) hotkey_except)
                      (hotkey_finally e) (None, w) with
    | (r, (_, w')) => (r, w')
    end.

(** ** Vocabulary of the properties *)

(** A drag gesture: press at the start point, any pointer motion with the
    button held, release at the end point; [later] are events that arrive
    after the release. *)
Definition drag (sx sy ex ey : Z) (moves : list (Z * Z)) (later : list event)
  : list event :=
  ButtonPress sx sy
  :: List.map (fun p => B1Motion (fst p) (snd p)) moves
  ++ ButtonRelease ex ey :: later.

(** An image without pixels. *)
Definition empty_image (img : image) : bool :=
  (fst (im_size img) =? 0) || (snd (im_size img) =? 0).



(** The selection [take_snip] works on. *)
Definition selected (e : env) : bbox :=
  selection_rect (mainloop tool_init (tk_events e)).

(** Outcome of the stages of one session that precede the cleanup:
    selection, capture, upload and clipboard write (the [try] block). *)
Definition session_result (e : env) (w : world) : result unit :=
  fst (hotkey_try e (None, w)).

(** The log line [on_hotkey] writes for an exception of the [try] block. *)
Definition session_error (ex : exn) : log_record :=
  LogRecord ERROR (lit "Error during snip+upload:") (Some ex).

(** The log line [on_hotkey] writes when the deletion fails. *)
Definition cleanup_error (ex : exn) : log_record :=
  LogRecord ERROR (lit "Could not delete temp file") (Some ex).

(** Value of a string of decimal digits. *)
Definition digits_value (s : str) : N :=
  fold_left (fun acc c => (10 * acc + (c - 48))%N) s 0%N.

(** [s] is the number [n] written on exactly [w] decimal digits. *)
Definition field (w : nat) (n : N) (s : str) : Prop :=
  length s = w /\ forallb Str.is_digit s = true /\ digits_value s = n.

(** [stamp] has the form [YYYYMMDD_HHMMSS] and spells the date and time
    of [d] down to the second. *)
Definition stamp_of (d : datetime) (stamp : str) : Prop :=
  exists Y m D H M S,
    stamp = Y ++ m ++ D ++ lit "_" ++ H ++ M ++ S
    /\ field 4 (year d) Y /\ field 2 (month d) m /\ field 2 (day d) D
    /\ field 2 (hour d) H /\ field 2 (minute d) M /\ field 2 (second d) S.

(** Two clock readings within the same second. *)
Definition same_second (d1 d2 : datetime) : Prop :=
  year d1 = year d2 /\ month d1 = month d2 /\ day d1 = day d2
  /\ hour d1 = hour d2 /\ minute d1 = minute d2 /\ second d1 = second d2.

(** ** The log file *)

(** [LOG_FILE = os.path.join(TMP_DIR, "f8_catbox.log")] *)
Definition LOG_FILE (e : env) : str :=
  os_path_join (os_sep (os e)) (TMP_DIR e) (lit "f8_catbox.log").

(** ** Pointer events, in general *)

Definition is_release (ev : event) : bool :=
  match ev with
  | ButtonRelease _ _ => true
  | _ => false
  end.

(** No button release among [evs]. *)
Definition no_release (evs : list event) : bool :=
  forallb (fun ev => negb (is_release ev)) evs.

(** The box spanned by two points. *)
Definition span (p q : Z * Z) : bbox :=
  (Z.min (fst p) (fst q), Z.min (snd p) (snd q),
   Z.max (fst p) (fst q), Z.max (snd p) (snd q)).

(** Point of the last press among [evs]; [d] when there is none. *)
Fixpoint last_press (evs : list event) (d : Z * Z) : Z * Z :=
  match evs with
  | [] => d
  | ButtonPress x y :: evs' => last_press evs' (x, y)
  | _ :: evs' => last_press evs' d
  end.

(** ** Lines of the log *)


(** ** Startup registration *)

(** [str.replace(old, new)] for a non-empty [old]: the occurrences of
    [old] are replaced from left to right, without overlap.  [skip]
    counts the characters of a replaced occurrence still to be dropped. *)
Fixpoint replace_from (old new : str) (skip : nat) (s : str) : str :=
  match s with
  | [] => []
  | c :: s' =>
      match skip with
      | S k => replace_from old new k s'
      | O =>
          if Str.startswith s old
          then new ++ replace_from old new (length old - 1) s'
          else c :: replace_from old new 0 s'
      end
  end.

Definition str_replace (s old new : str) : str := replace_from old new 0 s.

(** [old] occurs in [s] starting at one of the first [n] positions. *)
Fixpoint starts_within (old : str) (n : nat) (s : str) : bool :=
  match n, s with
  | S k, _ :: s' => Str.startswith s old || starts_within old k s'
  | _, _ => false
  end.

(** [old] occurs in [s]. *)
Definition occurs (old s : str) : bool := starts_within old (length s) s.

(** A [.lnk] file, by the properties [add_to_startup] sets. *)
Record shortcut := Shortcut {
  sc_Targetpath : str;
  sc_Arguments : str;
  sc_WorkingDirectory : str;
  sc_IconLocation : str
}.

(** The world together with the shortcuts of the Startup folder. *)
Record system := System {
  sys_world : world;
  links : gmap str shortcut       (* path -> shortcut *)
}.

(** What [add_to_startup] obtains from outside the program. *)
Record startup_env := StartupEnv {
  su_os : os_name;                      (* os.name *)
  win32com : option exn;                (* import win32com.client may fail *)
  APPDATA : result str;                 (* os.getenv('APPDATA') as a component of
                                           os.path.join, which raises on None *)
  script : str;                         (* os.path.abspath(__file__) *)
  dirname : str -> str;                 (* os.path.dirname *)
  executable : str;                     (* sys.executable *)
  com_shell : option exn;               (* Dispatch('WScript.Shell'), CreateShortCut *)
  com_save : shortcut -> option exn     (* shortcut.save() *)
}.

(** A world computation run on the world of a system. *)
Definition on_world {A} (m : M world A) : M system A :=
  fun s =>
    match m (sys_world s) with
    | (r, w') => (r, System w' (links s))
    end.

(** An outside call that either goes through or raises. *)
Definition outside {S} (o : option exn) : M S unit :=
  match o with
  | Some ex => raise ex
  | None => ret tt
  end.

Definition STARTUP_FOLDER : str :=
  lit "Microsoft\Windows\Start Menu\Programs\Startup".

Definition LINK_NAME : str := lit "F8 Catbox Uploader.lnk".

(** [startup_dir], line 39. *)
Definition startup_dir (se : startup_env) : M system str :=
  match APPDATA se with
  | Raise ex => raise ex
  | Ok appdata => ret (os_path_join (os_sep nt) appdata STARTUP_FOLDER)
  end.

(** [link_path], line 44. *)
Definition link_path_in (dir : str) : str :=
  os_path_join (os_sep nt) dir LINK_NAME.

(** [sys.executable.replace('python.exe', 'pythonw.exe')] *)
Definition pythonw (se : startup_env) : str :=
  str_replace (executable se) (lit "python.exe") (lit "pythonw.exe").

(** The f-string that puts [script] between double quotes. *)
Definition quoted (s : str) : str := 34%N :: s ++ [34%N].

(** The shortcut of lines 47-51. *)
Definition startup_shortcut (se : startup_env) : shortcut :=
  Shortcut (pythonw se) (quoted (script se)) (dirname se (script se)) (script se).

(** [shortcut.save()] *)
Definition shortcut_save (se : startup_env) (path : str) (sc : shortcut)
  : M system unit :=
  fun s =>
    match com_save se sc with
    | Some ex => (Raise ex, s)
    | None => (Ok tt, System (sys_world s) (<[path := sc]> (links s)))
    end.

(** [os.path.exists(link_path)] *)
Definition link_exists (path : str) : M system bool :=
  fun s => (Ok (bool_decide (is_Some (links s !! path))), s).

(** The [try] block of [add_to_startup]. *)
Definition startup_try (se : startup_env) : M system unit :=
  outside (win32com se) >>
  let* dir := startup_dir se in
  let link_path := link_path_in dir in
  let* there := link_exists link_path in
  if there : bool then ret tt
  else
    outside (com_shell se) >>
    shortcut_save se link_path (startup_shortcut se) >>
    on_world (logger_info (lit "Created startup shortcut: " ++ link_path)).

(** [add_to_startup()] *)
Definition add_to_startup (se : startup_env) : M system unit :=
  match su_os se with
  | posix => ret tt
  | nt =>
      try_except (startup_try se)
        (fun ex => on_world (logger_exception (lit "Failed to add to startup") ex))
  end.


(** The path of the shortcut for a given [APPDATA]. *)
Definition startup_link (appdata : str) : str :=
  link_path_in (os_path_join (os_sep nt) appdata STARTUP_FOLDER).

(** The log line of a failed registration. *)
Definition startup_error (ex : exn) : log_record :=
  LogRecord ERROR (lit "Failed to add to startup") (Some ex).

(** ** Sample runs *)

Module Sample.

Definition home_dir : str := lit "/home/u".

Definition shot : image := Image (200, 200) [1; 2; 3]%N.

Definition clock : datetime := DateTime 2024 5 6 7 8 9 123456.

Definition url : str := lit "https://files.example/abc.png".

Definition path : str :=
  lit "/home/u/Pictures/Screenshots/snip_20240506_070809.png".

(** Everything works: drag from (300,300) to (100,100), HTTP 200. *)
Definition good : env :=
  Env home_dir posix None
      [ButtonPress 300 300; B1Motion 200 200; ButtonRelease 100 100]
      (fun _ => Ok shot) clock (fun _ _ => SaveOk)
      (fun _ => None) (fun _ _ => Ok (Response 200 true url))
      (fun _ => CopyOk) (fun _ => None).

(** The endpoint answers HTTP 400 [Bad request]. *)
Definition rejected : env :=
  Env home_dir posix None
      [ButtonPress 300 300; B1Motion 200 200; ButtonRelease 100 100]
      (fun _ => Ok shot) clock (fun _ _ => SaveOk)
      (fun _ => None) (fun _ _ => Ok (Response 400 false (lit "Bad request")))
      (fun _ => CopyOk) (fun _ => None).

(** Everything works except [os.remove]. *)
Definition locked : env :=
  Env home_dir posix None
      [ButtonPress 300 300; B1Motion 200 200; ButtonRelease 100 100]
      (fun _ => Ok shot) clock (fun _ _ => SaveOk)
      (fun _ => None) (fun _ _ => Ok (Response 200 true url))
      (fun _ => CopyOk)
      (fun _ => Some (Exn OSError (lit "Permission denied"))).

Definition empty_error : exn :=
  Exn ValueError (lit "cannot write empty image").

(** A click without drag at (5,5): the grabber crops to the box, the
    encoder refuses an image without pixels. *)
Definition click : env :=
  Env home_dir posix None
      [ButtonPress 5 5; ButtonRelease 5 5]
      (fun box => match box with
                  | (x1, y1, x2, y2) => Ok (Image (x2 - x1, y2 - y1) [])
                  end)
      clock
      (fun img _ => if empty_image img then SaveFail empty_error false else SaveOk)
      (fun _ => None) (fun _ _ => Ok (Response 200 true url))
      (fun _ => CopyOk) (fun _ => None).

(** The clipboard backend empties the clipboard, then fails to set it. *)
Definition emptied : env :=
  Env home_dir posix None
      [ButtonPress 300 300; B1Motion 200 200; ButtonRelease 100 100]
      (fun _ => Ok shot) clock (fun _ _ => SaveOk)
      (fun _ => None) (fun _ _ => Ok (Response 200 true url))
      (fun _ => CopyFail (Exn PyperclipException (lit "SetClipboardData failed"))
                         (Some []))
      (fun _ => None).

(** The disk fills up while [img.save] is writing. *)
Definition torn : env :=
  Env home_dir posix None
      [ButtonPress 300 300; B1Motion 200 200; ButtonRelease 100 100]
      (fun _ => Ok shot) clock
      (fun _ _ => SaveFail (Exn OSError (lit "No space left on device")) true)
      (fun _ => None) (fun _ _ => Ok (Response 200 true url))
      (fun _ => CopyOk) (fun _ => None).

Definition shot2 : image := Image (50, 60) [7; 8]%N.

(** A second capture, 0.8 s after [clock]. *)
Definition again : env :=
  Env home_dir posix None
      [ButtonPress 10 20; ButtonRelease 60 80]
      (fun _ => Ok shot2) (DateTime 2024 5 6 7 8 9 923456) (fun _ _ => SaveOk)
      (fun _ => None) (fun _ _ => Ok (Response 200 true url))
      (fun _ => CopyOk) (fun _ => None).

Definition w0 : world := World ∅ (lit "old") [].

Definition w_shot : world := World {[ path := PngFile shot ]} (lit "old") [].

(** An earlier capture that was left in the directory. *)
Definition older : str :=
  lit "/home/u/Pictures/Screenshots/snip_20240101_000000.png".

Definition w_older : world := World {[ older := PngFile shot2 ]} (lit "old") [].

End Sample.

Module SampleStartup.

Definition roaming : str := lit "C:\Users\u\AppData\Roaming".

Definition link : str :=
  lit "C:\Users\u\AppData\Roaming\Microsoft\Windows\Start Menu\Programs\Startup\F8 Catbox Uploader.lnk".

(** A Windows installation run by [python.exe], pywin32 present. *)
Definition windows : startup_env :=
  StartupEnv nt None (Ok roaming)
             (lit "C:\tools\f8_catbox_uploader.py") (fun _ => lit "C:\tools")
             (lit "C:\Python311\python.exe")
             None (fun _ => None).

(** The same installation started through [pythonw.exe]. *)
Definition silent : startup_env :=
  StartupEnv nt None (Ok roaming)
             (lit "C:\tools\f8_catbox_uploader.py") (fun _ => lit "C:\tools")
             (lit "C:\Python311\pythonw.exe")
             None (fun _ => None).

(** A Linux installation. *)
Definition linux : startup_env :=
  StartupEnv posix None (Ok (lit "/home/u"))
             (lit "/opt/f8_catbox_uploader.py") (fun _ => lit "/opt")
             (lit "/usr/bin/python3")
             None (fun _ => None).

Definition s0 : system := System Sample.w0 ∅.

End SampleStartup.

Example of_Z_400 : Str.of_Z 400 = lit "400".
Proof. reflexivity. Qed.

Example strip_example : Str.strip (lit "  https://a  ") = lit "https://a".
Proof. vm_compute. reflexivity. Qed.

Example take_snip_good :
  fst (take_snip Sample.good Sample.w0) = Ok Sample.path.
Proof. vm_compute. reflexivity. Qed.

Example upload_good :
  fst (upload_to_catbox Sample.good Sample.path Sample.w_shot) = Ok Sample.url.
Proof. vm_compute. reflexivity. Qed.

Example upload_rejected :
  fst (upload_to_catbox Sample.rejected Sample.path Sample.w_shot)
  = Raise (Exn RuntimeError (lit "Upload failed (400): Bad request")).
Proof. vm_compute. reflexivity. Qed.

Example on_hotkey_good :
  on_hotkey Sample.good Sample.w0
  = (Ok tt,
     World ∅ Sample.url
       [LogRecord INFO (lit "Region snipped and saved to " ++ Sample.path) None;
        LogRecord INFO (lit "Upload successful: " ++ Sample.url) None;
        LogRecord INFO (lit "Link copied to clipboard.") None;
        LogRecord INFO (lit "Temporary file deleted: " ++ Sample.path) None]).
Proof. vm_compute. reflexivity. Qed.

(** ** Facts about strings *)

Section StrFacts.

(** A string that starts with [http] starts with a non-blank. *)
Lemma startswith_http_lstrip (s : str) :
  Str.startswith s (lit "http") = true -> Str.lstrip s = s.
Proof.
  destruct s as [|c s']; [reflexivity|].
  intros H. apply andb_prop in H as [Hc _].
  apply N.eqb_eq in Hc. subst c. reflexivity.
Qed.

(** [rstrip] removes a whitespace suffix and nothing else. *)
Lemma rstrip_split (s : str) :
  exists ws, s = Str.rstrip s ++ ws /\ Str.all_space ws = true.
Proof.
  induction s as [|c s' [ws [Heq Hws]]].
  - exists []. split; reflexivity.
  - simpl. destruct (Str.rstrip s') as [|r rs] eqn:Hr.
    + destruct (Str.isspace c) eqn:Hc.
      * exists (c :: ws). simpl in Heq. subst s'. split; [reflexivity|].
        simpl. rewrite Hc. exact Hws.
      * exists ws. simpl in Heq. subst s'. split; [reflexivity|exact Hws].
    + exists ws. split; [|exact Hws].
      rewrite Heq at 1. reflexivity.
Qed.

Lemma last_char_cons c (s : str) :
  s <> [] -> Str.last_char (c :: s) = Str.last_char s.
Proof. destruct s; [congruence|reflexivity]. Qed.

(** What [rstrip] leaves does not end with whitespace. *)
Lemma rstrip_last (s : str) c :
  Str.last_char (Str.rstrip s) = Some c -> Str.isspace c = false.
Proof.
  induction s as [|d s' IH]; [discriminate|].
  simpl. destruct (Str.rstrip s') as [|r rs] eqn:Hr.
  - destruct (Str.isspace d) eqn:Hd; [discriminate|].
    intros H. injection H as <-. exact Hd.
  - rewrite last_char_cons by discriminate. exact IH.
Qed.

(** Nothing to remove: [rstrip] is the identity. *)
Lemma rstrip_id (s : str) c :
  Str.last_char s = Some c -> Str.isspace c = false -> Str.rstrip s = s.
Proof.
  induction s as [|d s' IH]; [discriminate|].
  destruct s' as [|d' s''].
  - intros H Hc. injection H as <-. simpl. rewrite Hc. reflexivity.
  - rewrite last_char_cons by discriminate. intros H Hc.
    specialize (IH H Hc). change (Str.rstrip (d :: d' :: s''))
      with (match Str.rstrip (d' :: s'') with
            | [] => if Str.isspace d then [] else [d]
            | r => d :: r
            end).
    rewrite IH. reflexivity.
Qed.

(** A prefix without blanks is found before a whitespace suffix. *)
Lemma startswith_drop_space (u ws p : str) :
  Str.startswith (u ++ ws) p = true ->
  Str.all_space ws = true ->
  forallb (fun c => negb (Str.isspace c)) p = true ->
  Str.startswith u p = true.
Proof.
  revert u. induction p as [|c p' IH]; intros u Hs Hws Hp.
  - destruct u; reflexivity.
  - simpl in Hp. apply andb_prop in Hp as [Hc Hp'].
    destruct u as [|x u'].
    + destruct ws as [|d ws']; [discriminate|].
      simpl in Hs, Hws.
      apply andb_prop in Hs as [Hd _]. apply andb_prop in Hws as [Hsp _].
      apply N.eqb_eq in Hd. subst d. rewrite Hsp in Hc. discriminate.
    + simpl in Hs |- *. apply andb_prop in Hs as [Hx Hs'].
      rewrite Hx. simpl. apply IH; assumption.
Qed.

Lemma contains_mid (a s b : str) : Str.contains (a ++ s ++ b) s.
Proof. exists a, b. reflexivity. Qed.

End StrFacts.

(** ** Upload *)

Section Upload.

Variable e : env.
Variable w : world.
Variable filepath : str.
Variable f : file.
Variable resp : response.

(** The request was sent and answered with [resp]. *)
Hypothesis file_there : fs w !! filepath = Some f.
Hypothesis opened : open_rb e filepath = None.
Hypothesis answered : post e CATBOX_API f = Ok resp.

(** The code after the [with] block, as a function of the response. *)
Lemma upload_to_catbox_answered :
  upload_to_catbox e filepath w =
  if negb (ok resp) || negb (Str.startswith (text resp) (lit "http")) then
    (Raise (Exn RuntimeError (upload_failed_msg resp)), w)
  else
    (Ok (Str.strip (text resp)),
     emit (LogRecord INFO (lit "Upload successful: " ++ text resp) None) w).
Proof.
  unfold upload_to_catbox, bind, open_file, requests_post.
  rewrite file_there, opened, answered.
  destruct (negb (ok resp) || negb (Str.startswith (text resp) (lit "http")));
    reflexivity.
Qed.

(** C1.  Once the endpoint has answered, [upload_to_catbox] raises if and
    only if the response is not [ok] or its body does not start with
    [http]; the error it raises is the [RuntimeError]
    [Upload failed (<status>): <body>], whose message contains the
    status code in decimal and the raw body. *)
Theorem upload_raises_iff_bad_response :
  ((exists ex, fst (upload_to_catbox e filepath w) = Raise ex)
   <-> (ok resp = false \/ Str.startswith (text resp) (lit "http") = false))
  /\ (forall ex, fst (upload_to_catbox e filepath w) = Raise ex ->
        ex = Exn RuntimeError (upload_failed_msg resp)
        /\ Str.contains (exn_msg ex) (Str.of_Z (status_code resp))
        /\ Str.contains (exn_msg ex) (text resp)).
Proof.
  rewrite upload_to_catbox_answered.
  destruct (ok resp); destruct (Str.startswith (text resp) (lit "http"));
    simpl; (split; [split|]).
  all: try (intros [ex H]; discriminate).
  all: try (intros [H|H]; discriminate).
  all: try (intros ex H; discriminate).
  all: try (intros _; eexists; reflexivity).
  all: try (intros _; auto).
  all: intros ex H; injection H as <-; split; [reflexivity|]; simpl;
    unfold upload_failed_msg; split.
  all: try apply contains_mid.
  all: exists (lit "Upload failed (" ++ Str.of_Z (status_code resp) ++ lit "): "), [];
    rewrite app_nil_r, <- !app_assoc; reflexivity.
Qed.

(** C2.  For an [ok] response whose body starts with [http],
    [upload_to_catbox] returns the body without its trailing
    whitespace: the body is the returned URL followed by whitespace
    only, and the URL does not end with whitespace.  A body that does
    not end with whitespace is returned as it is. *)
Theorem upload_returns_body_without_trailing_whitespace :
  ok resp = true ->
  Str.startswith (text resp) (lit "http") = true ->
  exists url ws,
    fst (upload_to_catbox e filepath w) = Ok url
    /\ text resp = url ++ ws
    /\ Str.all_space ws = true
    /\ (forall c, Str.last_char url = Some c -> Str.isspace c = false)
    /\ (forall c, Str.last_char (text resp) = Some c ->
                  Str.isspace c = false -> url = text resp)
    /\ Str.startswith url (lit "http") = true.
Proof.
  intros Hok Hhttp. rewrite upload_to_catbox_answered, Hok, Hhttp. simpl.
  unfold Str.strip. rewrite (startswith_http_lstrip _ Hhttp).
  destruct (rstrip_split (text resp)) as [ws [Heq Hws]].
  exists (Str.rstrip (text resp)), ws.
  split; [reflexivity|]. split; [exact Heq|]. split; [exact Hws|].
  split; [intros c; apply rstrip_last|].
  split; [intros c; apply rstrip_id|].
  rewrite Heq in Hhttp.
  apply (startswith_drop_space _ ws _ Hhttp Hws). reflexivity.
Qed.

End Upload.

(** C1 at the rejected upload: HTTP 400 with body [Bad request]. *)
Lemma upload_raises_iff_bad_response_witness :
  let resp := Response 400 false (lit "Bad request") in
  let r := fst (upload_to_catbox Sample.rejected Sample.path Sample.w_shot) in
  ((exists ex, r = Raise ex)
   <-> (ok resp = false \/ Str.startswith (text resp) (lit "http") = false))
  /\ (forall ex, r = Raise ex ->
        ex = Exn RuntimeError (upload_failed_msg resp)
        /\ Str.contains (exn_msg ex) (Str.of_Z (status_code resp))
        /\ Str.contains (exn_msg ex) (text resp)).
Proof.
  apply (upload_raises_iff_bad_response Sample.rejected Sample.w_shot
           Sample.path (PngFile Sample.shot)).
  - vm_compute. reflexivity.
  - reflexivity.
  - reflexivity.
Defined.

(** C2 at the accepted upload: HTTP 200 with the URL as body. *)
Lemma upload_returns_body_without_trailing_whitespace_witness :
  exists url ws,
    fst (upload_to_catbox Sample.good Sample.path Sample.w_shot) = Ok url
    /\ Sample.url = url ++ ws
    /\ Str.all_space ws = true
    /\ (forall c, Str.last_char url = Some c -> Str.isspace c = false)
    /\ (forall c, Str.last_char Sample.url = Some c ->
                  Str.isspace c = false -> url = Sample.url)
    /\ Str.startswith url (lit "http") = true.
Proof.
  apply (upload_returns_body_without_trailing_whitespace Sample.good Sample.w_shot
           Sample.path (PngFile Sample.shot) (Response 200 true Sample.url)).
  - vm_compute. reflexivity.
  - reflexivity.
  - reflexivity.
  - reflexivity.
  - vm_compute. reflexivity.
Defined.

(** ** Region selection *)

Section Selection.

(** Motion events leave the recorded start and end points alone. *)
Lemma mainloop_motion (self : SnippingTool) (moves : list (Z * Z)) x y later :
  destroyed self = false ->
  rect self <> None ->
  let tool :=
    mainloop self (List.map (fun p => B1Motion (fst p) (snd p)) moves
                   ++ ButtonRelease x y :: later) in
  start_x tool = start_x self /\ start_y tool = start_y self
  /\ end_x tool = x /\ end_y tool = y /\ destroyed tool = true.
Proof.
  revert self. induction moves as [|[mx my] moves IH]; intros self Hd Hr.
  - simpl. rewrite Hd. simpl.
    destruct later; simpl; auto.
  - simpl. rewrite Hd.
    unfold on_move_press. destruct (rect self) as [b|] eqn:Hb; [|congruence].
    simpl in IH |- *.
    match goal with
    | |- context [mainloop ?s _] => specialize (IH s)
    end.
    simpl in IH. apply IH; [exact Hd|discriminate].
Qed.

(** After a drag the tool holds the two end points of the gesture. *)
Lemma mainloop_drag sx sy ex ey moves later :
  let tool := mainloop tool_init (drag sx sy ex ey moves later) in
  start_x tool = sx /\ start_y tool = sy /\ end_x tool = ex /\ end_y tool = ey.
Proof.
  unfold drag. simpl.
  pose proof (mainloop_motion (on_button_press tool_init sx sy) moves ex ey later)
    as H.
  simpl in H. destruct H as (H1 & H2 & H3 & H4 & _);
    [reflexivity|discriminate|]. auto.
Qed.

(** After a drag [take_snip] goes on with the box spanned by its two
    end points. *)
Lemma take_snip_after_drag (e : env) (w : world) sx sy ex ey moves later :
  tk_init e = None ->
  tk_events e = drag sx sy ex ey moves later ->
  let box := (Z.min sx ex, Z.min sy ey, Z.max sx ex, Z.max sy ey) in
  selected e = box /\ take_snip e w = capture e box w.
Proof.
  intros Hinit Hev box.
  assert (Hbox : selected e = box).
  { unfold selected. rewrite Hev.
    destruct (mainloop_drag sx sy ex ey moves later) as (H1 & H2 & H3 & H4).
    unfold selection_rect. rewrite H1, H2, H3, H4. reflexivity. }
  split; [exact Hbox|].
  unfold take_snip, new_SnippingTool, bind. rewrite Hinit. unfold ret.
  fold (selected e). rewrite Hbox. reflexivity.
Qed.

(** C3.  Whatever the direction of the drag from [(sx, sy)] to
    [(ex, ey)], the box [take_snip] computes and hands to the grabber is
    [(min sx ex, min sy ey, max sx ex, max sy ey)]; so [x1 <= x2] and
    [y1 <= y2]. *)
Theorem take_snip_normalizes_drag (e : env) (w : world)
        sx sy ex ey moves later :
  tk_init e = None ->
  tk_events e = drag sx sy ex ey moves later ->
  let box := (Z.min sx ex, Z.min sy ey, Z.max sx ex, Z.max sy ey) in
  selected e = box
  /\ take_snip e w = capture e box w
  /\ Z.min sx ex <= Z.max sx ex
  /\ Z.min sy ey <= Z.max sy ey.
Proof.
  intros Hinit Hev box.
  destruct (take_snip_after_drag e w sx sy ex ey moves later Hinit Hev)
    as [Hbox Hsnip].
  split; [exact Hbox|]. split; [exact Hsnip|]. lia.
Qed.

End Selection.

(** C3 at the drag from (300,300) to (100,100): the box is (100,100,300,300). *)
Lemma take_snip_normalizes_drag_witness :
  selected Sample.good = (100, 100, 300, 300)
  /\ take_snip Sample.good Sample.w0 = capture Sample.good (100, 100, 300, 300) Sample.w0
  /\ Z.min 300 100 <= Z.max 300 100
  /\ Z.min 300 100 <= Z.max 300 100.
Proof.
  apply (take_snip_normalizes_drag Sample.good Sample.w0
           300 300 100 100 [(200, 200)] []); reflexivity.
Defined.

(** ** Timestamps and paths *)

Section Stamp.

Lemma zero_padded_length w n : length (Str.zero_padded w n) = w.
Proof.
  revert n. induction w as [|w IH]; intros n; [reflexivity|].
  simpl. rewrite length_app, IH. simpl. lia.
Qed.

Lemma digit_is_digit d : (d < 10)%N -> Str.is_digit (Str.digit d) = true.
Proof.
  intros H. unfold Str.is_digit, Str.digit.
  apply andb_true_intro. split; apply N.leb_le; lia.
Qed.

Lemma zero_padded_digits w n : forallb Str.is_digit (Str.zero_padded w n) = true.
Proof.
  revert n. induction w as [|w IH]; intros n; [reflexivity|].
  simpl. rewrite forallb_app, IH. simpl.
  rewrite digit_is_digit; [reflexivity|].
  apply N.mod_lt. discriminate.
Qed.

Lemma digits_value_snoc s d :
  digits_value (s ++ [Str.digit d]) = (10 * digits_value s + d)%N.
Proof.
  unfold digits_value. rewrite fold_left_app. simpl.
  unfold Str.digit. lia.
Qed.

(** Reading back [w] digits gives the number modulo [10^w]. *)
Lemma zero_padded_value w n :
  digits_value (Str.zero_padded w n) = (n mod 10 ^ N.of_nat w)%N.
Proof.
  revert n. induction w as [|w IH]; intros n.
  - simpl. rewrite N.mod_1_r. reflexivity.
  - simpl Str.zero_padded. rewrite digits_value_snoc, IH.
    rewrite Nat2N.inj_succ, N.pow_succ_r', N.Div0.mod_mul_r. lia.
Qed.

Lemma zero_padded_field w n :
  (n < 10 ^ N.of_nat w)%N -> field w n (Str.zero_padded w n).
Proof.
  intros H. split; [apply zero_padded_length|].
  split; [apply zero_padded_digits|].
  rewrite zero_padded_value. apply N.mod_small. exact H.
Qed.

Lemma strftime_stamp d : valid_datetime d -> stamp_of d (strftime d).
Proof.
  intros (Hy & Hm & Hd & HH & HM & HS & _).
  exists (Str.zero_padded 4 (year d)), (Str.zero_padded 2 (month d)),
    (Str.zero_padded 2 (day d)), (Str.zero_padded 2 (hour d)),
    (Str.zero_padded 2 (minute d)), (Str.zero_padded 2 (second d)).
  split; [reflexivity|].
  split; [|split; [|split; [|split; [|split]]]];
    apply zero_padded_field;
    change (10 ^ N.of_nat 4)%N with 10000%N;
    change (10 ^ N.of_nat 2)%N with 100%N; lia.
Qed.

(** The stamp ignores the microseconds. *)
Lemma strftime_same_second d1 d2 :
  same_second d1 d2 -> strftime d1 = strftime d2.
Proof.
  intros (Hy & Hm & Hd & HH & HM & HS). unfold strftime.
  rewrite Hy, Hm, Hd, HH, HM, HS. reflexivity.
Qed.

End Stamp.

Section Paths.

Lemma last_char_app_cons (a : str) c (b : str) :
  Str.last_char (a ++ c :: b) = Str.last_char (c :: b).
Proof.
  induction a as [|x a IH]; [reflexivity|].
  change ((x :: a) ++ c :: b) with (x :: (a ++ c :: b)).
  rewrite last_char_cons; [exact IH|]. destruct a; discriminate.
Qed.

(** Joining onto a directory that does not end with the separator. *)
Lemma os_path_join_sep sp (a b : str) c :
  Str.last_char a = Some c -> c <> sp -> os_path_join sp a b = a ++ sp :: b.
Proof.
  intros Hl Hc. unfold os_path_join. rewrite Hl.
  destruct (N.eqb_spec c sp); [contradiction|reflexivity].
Qed.

Lemma os_path_join_suffix sp (a b : str) : exists pre, os_path_join sp a b = pre ++ b.
Proof.
  unfold os_path_join.
  destruct (Str.last_char a) as [c|].
  - destruct (N.eqb c sp).
    + exists a. reflexivity.
    + exists (a ++ [sp]). rewrite <- app_assoc. reflexivity.
  - exists []. reflexivity.
Qed.

(** [TMP_DIR] ends with the letter [s] of [Screenshots]. *)
Lemma TMP_DIR_last e : Str.last_char (TMP_DIR e) = Some 115%N.
Proof.
  unfold TMP_DIR.
  destruct (os_path_join_suffix (os_sep (os e))
              (os_path_join (os_sep (os e)) (home e) (lit "Pictures"))
              (lit "Screenshots")) as [pre ->].
  change (lit "Screenshots") with (83%N :: lit "creenshots").
  rewrite last_char_app_cons. reflexivity.
Qed.

(** The capture file lies directly in [TMP_DIR]. *)
Lemma snip_path_eq e :
  snip_path e = TMP_DIR e ++ os_sep (os e) :: snip_filename (now e).
Proof.
  unfold snip_path. apply (os_path_join_sep _ _ _ _ (TMP_DIR_last e)).
  destruct (os e); discriminate.
Qed.

Lemma snip_path_nonempty e : snip_path e <> [].
Proof. rewrite snip_path_eq. destruct (TMP_DIR e); discriminate. Qed.

Lemma TMP_DIR_config e1 e2 :
  home e1 = home e2 -> os e1 = os e2 -> TMP_DIR e1 = TMP_DIR e2.
Proof. intros Hh Ho. unfold TMP_DIR. rewrite Hh, Ho. reflexivity. Qed.

End Paths.

(** ** Capture *)

Section Capture.

(** [take_snip] returns only when the window came up, the grab gave an
    image and the save went through; the world then holds the file and
    one more log line. *)
Lemma take_snip_ok (e : env) (w : world) path w' :
  take_snip e w = (Ok path, w') ->
  exists img,
    tk_init e = None
    /\ grab e (selected e) = Ok img
    /\ save e img (snip_path e) = SaveOk
    /\ path = snip_path e
    /\ w' = emit (LogRecord INFO (lit "Region snipped and saved to " ++ path) None)
                 (write_file path (PngFile img) w).
Proof.
  unfold take_snip, new_SnippingTool, capture, bind, ImageGrab_grab, img_save,
    logger_info, ret, raise, selected.
  destruct (tk_init e) as [ex|]; [discriminate|].
  destruct (grab e _) as [img|ex] eqn:Hgrab; [|discriminate].
  destruct (save e img (snip_path e)) as [|ex [|]] eqn:Hsave; try discriminate.
  intros H. injection H as <- <-. exists img.
  repeat split; assumption.
Qed.

(** C8.  When [take_snip] returns, the path it returns is
    [TMP_DIR/snip_<stamp>.png] where [stamp] is the clock reading written
    as [YYYYMMDD_HHMMSS], and the grabbed image has been written to that
    path. *)
Theorem take_snip_writes_timestamped_png (e : env) (w : world) path w' :
  valid_datetime (now e) ->
  take_snip e w = (Ok path, w') ->
  exists img stamp,
    grab e (selected e) = Ok img
    /\ stamp_of (now e) stamp
    /\ path = TMP_DIR e ++ os_sep (os e) :: lit "snip_" ++ stamp ++ lit ".png"
    /\ fs w' = <[path := PngFile img]> (fs w).
Proof.
  intros Hvalid Hsnip.
  destruct (take_snip_ok e w path w' Hsnip) as (img & _ & Hgrab & _ & -> & ->).
  exists img, (strftime (now e)).
  split; [exact Hgrab|]. split; [apply strftime_stamp; exact Hvalid|].
  split; [apply snip_path_eq|reflexivity].
Qed.

(** C10.  The path depends on the clock only down to the second: two
    captures of one installation whose clock readings fall within the
    same second get the same path, and the file of the first is replaced
    by the image of the second. *)
Theorem same_second_captures_collide (e1 e2 : env) (w w1 w2 : world) p1 p2 :
  home e1 = home e2 ->
  os e1 = os e2 ->
  same_second (now e1) (now e2) ->
  take_snip e1 w = (Ok p1, w1) ->
  take_snip e2 w1 = (Ok p2, w2) ->
  p1 = p2
  /\ exists img1 img2,
       grab e1 (selected e1) = Ok img1
       /\ grab e2 (selected e2) = Ok img2
       /\ fs w1 !! p1 = Some (PngFile img1)
       /\ fs w2 !! p1 = Some (PngFile img2)
       /\ fs w2 = <[p1 := PngFile img2]> (fs w).
Proof.
  intros Hhome Hos Hsec H1 H2.
  destruct (take_snip_ok e1 w p1 w1 H1) as (img1 & _ & Hg1 & _ & Hp1 & Hw1).
  destruct (take_snip_ok e2 w1 p2 w2 H2) as (img2 & _ & Hg2 & _ & Hp2 & Hw2).
  assert (Hp : p1 = p2).
  { rewrite Hp1, Hp2, !snip_path_eq. unfold snip_filename.
    rewrite (TMP_DIR_config e1 e2 Hhome Hos), Hos,
      (strftime_same_second _ _ Hsec). reflexivity. }
  split; [exact Hp|]. exists img1, img2.
  split; [exact Hg1|]. split; [exact Hg2|].
  subst w1 w2. simpl. rewrite <- Hp.
  split; [apply lookup_insert_eq|]. split; [apply lookup_insert_eq|].
  apply insert_insert_eq.
Qed.


End Capture.

(** C8 at the sample capture of 2024-05-06 07:08:09. *)
Lemma take_snip_writes_timestamped_png_witness :
  exists img stamp,
    grab Sample.good (selected Sample.good) = Ok img
    /\ stamp_of Sample.clock stamp
    /\ Sample.path
       = TMP_DIR Sample.good ++ os_sep posix :: lit "snip_" ++ stamp ++ lit ".png"
    /\ fs (snd (take_snip Sample.good Sample.w0))
       = <[Sample.path := PngFile img]> (fs Sample.w0).
Proof.
  apply (take_snip_writes_timestamped_png Sample.good Sample.w0 Sample.path
           (snd (take_snip Sample.good Sample.w0))).
  - unfold valid_datetime. simpl. lia.
  - vm_compute. reflexivity.
Defined.

(** C10 at two captures 0.8 s apart within 07:08:09. *)
Lemma same_second_captures_collide_witness :
  Sample.path = Sample.path
  /\ exists img1 img2,
       grab Sample.good (selected Sample.good) = Ok img1
       /\ grab Sample.again (selected Sample.again) = Ok img2
       /\ fs (snd (take_snip Sample.good Sample.w0)) !! Sample.path
          = Some (PngFile img1)
       /\ fs (snd (take_snip Sample.again (snd (take_snip Sample.good Sample.w0))))
          !! Sample.path = Some (PngFile img2)
       /\ fs (snd (take_snip Sample.again (snd (take_snip Sample.good Sample.w0))))
          = <[Sample.path := PngFile img2]> (fs Sample.w0).
Proof.
  apply (same_second_captures_collide Sample.good Sample.again Sample.w0).
  - reflexivity.
  - reflexivity.
  - unfold same_second. simpl. repeat split.
  - vm_compute. reflexivity.
  - vm_compute. reflexivity.
Defined.

(** ** The hotkey callback *)

Section Hotkey.

Variable e : env.

(** [upload_to_catbox] touches neither the files nor the clipboard. *)
Lemma upload_frame p (w : world) r w1 :
  upload_to_catbox e p w = (r, w1) ->
  fs w1 = fs w /\ clipboard w1 = clipboard w.
Proof.
  unfold upload_to_catbox, bind, open_file, requests_post, raise,
    logger_info, ret.
  destruct (fs w !! p) as [f|]; [|intros H; injection H as <- <-; auto].
  destruct (open_rb e p); [intros H; injection H as <- <-; auto|].
  destruct (post e CATBOX_API f) as [resp|ex];
    [|intros H; injection H as <- <-; auto].
  destruct (negb (ok resp) || negb (Str.startswith (text resp) (lit "http")));
    intros H; injection H as <- <-; auto.
Qed.

(** [take_snip] leaves the clipboard alone. *)
Lemma take_snip_clipboard (w : world) r w1 :
  take_snip e w = (r, w1) -> clipboard w1 = clipboard w.
Proof.
  unfold take_snip, new_SnippingTool, capture, bind, ImageGrab_grab, img_save,
    logger_info, ret, raise.
  destruct (tk_init e); [intros H; injection H as <- <-; reflexivity|].
  destruct (grab e _) as [img|ex]; [|intros H; injection H as <- <-; reflexivity].
  destruct (save e img (snip_path e)) as [|ex [|]];
    intros H; injection H as <- <-; reflexivity.
Qed.

(** The run of the [try] block, stage by stage. *)
Lemma hotkey_try_run (w : world) :
  hotkey_try e (None, w) =
  match take_snip e w with
  | (Raise ex, w1) => (Raise ex, (None, w1))
  | (Ok p, w1) =>
      match upload_to_catbox e p w1 with
      | (Raise ex, w2) => (Raise ex, (Some p, w2))
      | (Ok url, w2) =>
          match copy e url with
          | CopyOk =>
              (Ok tt,
               (Some p,
                emit (LogRecord INFO (lit "Link copied to clipboard.") None)
                     (World (fs w2) url (log w2))))
          | CopyFail ex None => (Raise ex, (Some p, w2))
          | CopyFail ex (Some s) => (Raise ex, (Some p, World (fs w2) s (log w2)))
          end
      end
  end.
Proof.
  unfold hotkey_try, bind, lift, set_local, pyperclip_copy, logger_info.
  cbn [fst snd].
  destruct (take_snip e w) as [[p|ex] w1]; [|reflexivity].
  cbn [fst snd].
  destruct (upload_to_catbox e p w1) as [[url|ex] w2]; [|reflexivity].
  cbn [fst snd].
  destruct (copy e url) as [|cex [s|]]; reflexivity.
Qed.


(** The [finally] block when the recorded path names an existing file. *)
Lemma hotkey_finally_some p (w : world) f :
  p <> [] ->
  fs w !! p = Some f ->
  hotkey_finally e (Some p, w) =
  match remove e p with
  | None =>
      (Ok tt,
       (Some p,
        emit (LogRecord INFO (lit "Temporary file deleted: " ++ p) None)
             (World (delete p (fs w)) (clipboard w) (log w))))
  | Some ex =>
      (Ok tt,
       (Some p,
        emit (LogRecord ERROR (lit "Could not delete temp file") (Some ex)) w))
  end.
Proof.
  intros Hp Hf. destruct p as [|c p']; [congruence|].
  unfold hotkey_finally, bind, get_local, lift, os_path_exists, try_except,
    os_remove, logger_info, logger_exception.
  cbn [fst snd]. rewrite Hf.
  rewrite bool_decide_eq_true_2 by eauto.
  cbn [fst snd]. rewrite Hf.
  destruct (remove e (c :: p')); reflexivity.
Qed.

(** The [finally] block never raises, and only deletes and logs. *)
Lemma hotkey_finally_total (s : option str * world) :
  exists w' extra,
    hotkey_finally e s = (Ok tt, (fst s, w'))
    /\ clipboard w' = clipboard (snd s)
    /\ log w' = log (snd s) ++ extra.
Proof.
  destruct s as [[[|c p']|] w]; simpl.
  - exists w, []. rewrite app_nil_r. auto.
  - unfold hotkey_finally, bind, get_local, lift, os_path_exists, try_except,
      os_remove, logger_info, logger_exception, ret.
    cbn [fst snd].
    destruct (fs w !! (c :: p')) as [f|] eqn:Hf.
    + rewrite bool_decide_eq_true_2 by eauto.
      cbn [fst snd]. rewrite Hf.
      destruct (remove e (c :: p')); eexists _, [_]; simpl; auto.
    + rewrite bool_decide_eq_false_2 by (intros [? ?]; discriminate).
      exists w, []. rewrite app_nil_r. auto.
  - exists w, []. rewrite app_nil_r. auto.
Qed.

(** [on_hotkey] in terms of its three blocks. *)
Lemma on_hotkey_run (w : world) :
  on_hotkey e w =
  match hotkey_try e (None, w) with
  | (Ok _, s) => (Ok tt, snd (snd (hotkey_finally e s)))
  | (Raise ex, (path, w1)) =>
      (Ok tt,
       snd (snd (hotkey_finally e
                   (path,
                    emit (LogRecord ERROR (lit "Error during snip+upload:") (Some ex))
                         w1))))
  end.
Proof.
  unfold on_hotkey, try_finally, try_except, hotkey_except, lift,
    logger_exception.
  destruct (hotkey_try e (None, w)) as [[[]|ex] [path w1]]; cbn [fst snd].
  - destruct (hotkey_finally_total (path, w1)) as (w' & extra & -> & _).
    reflexivity.
  - destruct (hotkey_finally_total
                (path, emit (LogRecord ERROR (lit "Error during snip+upload:")
                                       (Some ex)) w1))
      as (w' & extra & -> & _).
    reflexivity.
Qed.

End Hotkey.

Section Session.

Variable e : env.
Variable w : world.

(** Once [take_snip] has returned [p], the [try] block ends with [p]
    recorded and the files as [take_snip] left them. *)
Lemma hotkey_try_after_snip p w1 :
  take_snip e w = (Ok p, w1) ->
  exists r w2, hotkey_try e (None, w) = (r, (Some p, w2)) /\ fs w2 = fs w1.
Proof.
  intros Hsnip. rewrite hotkey_try_run, Hsnip.
  destruct (upload_to_catbox e p w1) as [[url|ex] w2] eqn:Hup;
    destruct (upload_frame e p w1 _ _ Hup) as [Hfs _].
  - destruct (copy e url) as [|cex [s|]];
      eexists _, _; split; try reflexivity; exact Hfs.
  - eexists _, _. split; [reflexivity|exact Hfs].
Qed.

(** The world [on_hotkey] leaves when [take_snip] has returned [p]: the
    [finally] block finds the file and tries to delete it. *)
Lemma on_hotkey_after_snip p w1 :
  take_snip e w = (Ok p, w1) ->
  exists w3 f,
    fs w3 !! p = Some f
    /\ on_hotkey e w =
       (Ok tt,
        match remove e p with
        | None =>
            emit (LogRecord INFO (lit "Temporary file deleted: " ++ p) None)
                 (World (delete p (fs w3)) (clipboard w3) (log w3))
        | Some ex => emit (cleanup_error ex) w3
        end).
Proof.
  intros Hsnip.
  destruct (take_snip_ok e w p w1 Hsnip) as (img & _ & _ & _ & Hp & Hw1).
  destruct (hotkey_try_after_snip p w1 Hsnip) as (r & w2 & Htry & Hfs).
  assert (Hfile : fs w2 !! p = Some (PngFile img)).
  { rewrite Hfs, Hw1. simpl. apply lookup_insert_eq. }
  assert (Hne : p <> []) by (rewrite Hp; apply snip_path_nonempty).
  rewrite on_hotkey_run, Htry. destruct r as [[]|ex].
  - exists w2, (PngFile img). split; [exact Hfile|].
    rewrite (hotkey_finally_some e p w2 _ Hne Hfile).
    destruct (remove e p); reflexivity.
  - exists (emit (session_error ex) w2), (PngFile img).
    split; [exact Hfile|].
    rewrite (hotkey_finally_some e p _ (PngFile img) Hne) by exact Hfile.
    destruct (remove e p); reflexivity.
Qed.

(** C4.  [on_hotkey] always returns normally.  An exception raised by
    selection, capture, upload or the clipboard write is logged with
    [logger.exception]; so is one raised by the deletion of the file. *)
Theorem on_hotkey_never_raises :
  fst (on_hotkey e w) = Ok tt
  /\ match session_result e w with
     | Raise ex => In (session_error ex) (log (snd (on_hotkey e w)))
     | Ok _ => True
     end
  /\ match take_snip e w with
     | (Ok p, _) =>
         match remove e p with
         | Some ex => In (cleanup_error ex) (log (snd (on_hotkey e w)))
         | None => True
         end
     | (Raise _, _) => True
     end.
Proof.
  split; [|split].
  - rewrite on_hotkey_run.
    destruct (hotkey_try e (None, w)) as [[[]|ex] [path w1]]; reflexivity.
  - unfold session_result. rewrite on_hotkey_run.
    destruct (hotkey_try e (None, w)) as [[[]|ex] [path w1]]; [exact I|].
    cbn [fst snd].
    destruct (hotkey_finally_total e (path, emit (session_error ex) w1))
      as (w' & extra & Hfin & _ & Hlog).
    unfold session_error in Hfin. rewrite Hfin. cbn [fst snd].
    rewrite Hlog. apply in_or_app. left.
    simpl. apply in_or_app. right. left. reflexivity.
  - destruct (take_snip e w) as [[p|ex] w1] eqn:Hsnip; [|exact I].
    destruct (on_hotkey_after_snip p w1 Hsnip) as (w3 & f & _ & Hrun).
    rewrite Hrun. destruct (remove e p) as [ex|]; [|exact I].
    simpl. apply in_or_app. right. left. reflexivity.
Qed.

(** C5, as the code has it.  When [take_snip] has returned the path of
    the capture file, [on_hotkey] calls [os.remove] on it on every exit
    path, whatever the upload and the clipboard write did.  If the call
    succeeds the file is gone when [on_hotkey] returns; if it raises, the
    failure is logged and the file stays. *)
Theorem on_hotkey_cleanup_best_effort p w1 :
  take_snip e w = (Ok p, w1) ->
  match remove e p with
  | None => fs (snd (on_hotkey e w)) !! p = None
  | Some ex =>
      is_Some (fs (snd (on_hotkey e w)) !! p)
      /\ In (cleanup_error ex) (log (snd (on_hotkey e w)))
  end.
Proof.
  intros Hsnip.
  destruct (on_hotkey_after_snip p w1 Hsnip) as (w3 & f & Hf & Hrun).
  rewrite Hrun. destruct (remove e p) as [ex|]; simpl.
  - split; [rewrite Hf; eauto|].
    apply in_or_app. right. left. reflexivity.
  - apply lookup_delete_eq.
Qed.

(** The [finally] block leaves the clipboard as the [try] and [except]
    blocks left it. *)
Lemma on_hotkey_clipboard_after_try r path wt :
  hotkey_try e (None, w) = (r, (path, wt)) ->
  clipboard (snd (on_hotkey e w)) = clipboard wt.
Proof.
  intros Htry. rewrite on_hotkey_run, Htry.
  destruct r as [[]|ex]; cbn [snd].
  - destruct (hotkey_finally_total e (path, wt)) as (w' & extra & -> & Hc & _).
    exact Hc.
  - destruct (hotkey_finally_total e (path, emit (session_error ex) wt))
      as (w' & extra & Hfin & Hc & _).
    unfold session_error in Hfin. rewrite Hfin. exact Hc.
Qed.

(** C6, as the code has it.  Nothing but [pyperclip.copy] writes the
    clipboard, and [on_hotkey] calls it only once selection, capture and
    upload have succeeded.  When [take_snip] or [upload_to_catbox]
    raises, the clipboard is what it was before the session.  When
    [pyperclip.copy] returns, the clipboard holds the URL
    [upload_to_catbox] returned, and keeps it whether or not the cleanup
    that follows fails.  When [pyperclip.copy] itself raises, the
    clipboard is what the failed call left: nothing restores it. *)
Theorem clipboard_after_session :
  match take_snip e w with
  | (Raise _, _) => clipboard (snd (on_hotkey e w)) = clipboard w
  | (Ok p, w1) =>
      match upload_to_catbox e p w1 with
      | (Raise _, _) => clipboard (snd (on_hotkey e w)) = clipboard w
      | (Ok url, _) =>
          match copy e url with
          | CopyOk => clipboard (snd (on_hotkey e w)) = url
          | CopyFail _ None => clipboard (snd (on_hotkey e w)) = clipboard w
          | CopyFail _ (Some s) => clipboard (snd (on_hotkey e w)) = s
          end
      end
  end.
Proof.
  pose proof (hotkey_try_run e w) as Htry.
  destruct (take_snip e w) as [[p|sex] w1] eqn:Hsnip.
  - pose proof (take_snip_clipboard e w _ _ Hsnip) as Hcs.
    destruct (upload_to_catbox e p w1) as [[url|uex] w2] eqn:Hup;
      destruct (upload_frame e p w1 _ _ Hup) as [_ Hcu].
    + destruct (copy e url) as [|cex [s|]];
        rewrite (on_hotkey_clipboard_after_try _ _ _ Htry);
        simpl; congruence.
    + rewrite (on_hotkey_clipboard_after_try _ _ _ Htry). congruence.
  - rewrite (on_hotkey_clipboard_after_try _ _ _ Htry).
    exact (take_snip_clipboard e w _ _ Hsnip).
Qed.

End Session.

(** C5, what the code does, at the session in which [os.remove] succeeds. *)
Lemma on_hotkey_cleanup_best_effort_witness :
  fs (snd (on_hotkey Sample.good Sample.w0)) !! Sample.path = None.
Proof.
  apply (on_hotkey_cleanup_best_effort Sample.good Sample.w0 Sample.path
           (snd (take_snip Sample.good Sample.w0))).
  vm_compute. reflexivity.
Defined.

(** C5 as stated does not hold.  The deletion is best effort: in a
    session in which [os.remove] raises (the file is locked), the capture
    file created by that session is still on disk when [on_hotkey]
    returns, and the failure is only logged. *)
Lemma capture_file_survives_failed_remove :
  fs Sample.w0 !! Sample.path = None
  /\ fst (take_snip Sample.locked Sample.w0) = Ok Sample.path
  /\ fst (on_hotkey Sample.locked Sample.w0) = Ok tt
  /\ fs (snd (on_hotkey Sample.locked Sample.w0)) !! Sample.path
     = Some (PngFile Sample.shot)
  /\ last (log (snd (on_hotkey Sample.locked Sample.w0)))
     = Some (cleanup_error (Exn OSError (lit "Permission denied"))).
Proof. vm_compute. repeat split. Qed.

(** A save that fails after having created the file leaves [path] unset
    in [on_hotkey]: nothing is deleted. *)
Example on_hotkey_keeps_torn_file :
  fst (take_snip Sample.torn Sample.w0)
  = Raise (Exn OSError (lit "No space left on device"))
  /\ fst (on_hotkey Sample.torn Sample.w0) = Ok tt
  /\ fs (snd (on_hotkey Sample.torn Sample.w0)) !! Sample.path = Some PartialFile.
Proof. vm_compute. repeat split. Qed.

(** A failed upload: the error is logged, the file deleted, the
    clipboard untouched. *)
Example on_hotkey_rejected :
  on_hotkey Sample.rejected Sample.w0
  = (Ok tt,
     World ∅ (lit "old")
       [LogRecord INFO (lit "Region snipped and saved to " ++ Sample.path) None;
        session_error (Exn RuntimeError (lit "Upload failed (400): Bad request"));
        LogRecord INFO (lit "Temporary file deleted: " ++ Sample.path) None]).
Proof. vm_compute. reflexivity. Qed.

(** C6 as stated does not hold.  In a session that fails at the cleanup
    ([os.remove] raises, the error is logged) the clipboard has changed
    all the same: the link was copied before the cleanup ran. *)
Lemma clipboard_changed_by_session_failing_at_cleanup :
  clipboard Sample.w0 = lit "old"
  /\ fst (on_hotkey Sample.locked Sample.w0) = Ok tt
  /\ last (log (snd (on_hotkey Sample.locked Sample.w0)))
     = Some (cleanup_error (Exn OSError (lit "Permission denied")))
  /\ clipboard (snd (on_hotkey Sample.locked Sample.w0)) = Sample.url.
Proof. vm_compute. repeat split. Qed.

(** A clipboard write that fails after having emptied the clipboard:
    the session fails, and the old content is gone. *)
Example on_hotkey_emptied_clipboard :
  session_result Sample.emptied Sample.w0
  = Raise (Exn PyperclipException (lit "SetClipboardData failed"))
  /\ clipboard (snd (on_hotkey Sample.emptied Sample.w0)) = [].
Proof. vm_compute. repeat split. Qed.

(** ** Selections without area *)

Section EmptySelection.

Variable e : env.
Variable w : world.



End EmptySelection.


(** The click on (5,5), run: the encoder's error is what is logged. *)
Example on_hotkey_click :
  on_hotkey Sample.click Sample.w0
  = (Ok tt, World ∅ (lit "old") [session_error Sample.empty_error]).
Proof. vm_compute. reflexivity. Qed.

(** ** More on the snipping tool *)

Section Pointer.

Lemma mainloop_destroyed (self : SnippingTool) evs :
  destroyed self = true -> mainloop self evs = self.
Proof. intros H. destruct evs; simpl; [|rewrite H]; reflexivity. Qed.

Lemma mainloop_app (self : SnippingTool) pre rest :
  mainloop self (pre ++ rest) = mainloop (mainloop self pre) rest.
Proof.
  revert self. induction pre as [|ev pre IH]; intros self; [reflexivity|].
  simpl. destruct (destroyed self) eqn:Hd.
  - rewrite mainloop_destroyed by exact Hd. reflexivity.
  - apply IH.
Qed.

(** Before the release, only presses move the start point, and the end
    point stays where it was. *)
Lemma mainloop_no_release (self : SnippingTool) evs :
  destroyed self = false ->
  no_release evs = true ->
  let tool := mainloop self evs in
  (start_x tool, start_y tool) = last_press evs (start_x self, start_y self)
  /\ end_x tool = end_x self /\ end_y tool = end_y self
  /\ destroyed tool = false.
Proof.
  revert self. induction evs as [|ev evs IH]; intros self Hd Hn.
  - simpl. auto.
  - simpl in Hn. apply andb_prop in Hn as [Hev Hn].
    simpl. rewrite Hd.
    destruct ev as [x y|x y|x y]; [| |discriminate]; simpl.
    + apply (IH (on_button_press self x y)); [exact Hd|exact Hn].
    + unfold on_move_press. destruct (rect self).
      * apply (IH (Tool (start_x self) (start_y self) (end_x self) (end_y self)
                        (Some (start_x self, start_y self, x, y))
                        (destroyed self))); [exact Hd|exact Hn].
      * apply IH; [exact Hd|exact Hn].
Qed.

(** X1.  Whatever the pointer does, the selection is spanned by the
    point of the last press before the first release ((0,0) when the
    button was never pressed) and the point of that release; events
    after the release are not looked at. *)
Theorem selected_first_release (e : env) pre x y later :
  tk_events e = pre ++ ButtonRelease x y :: later ->
  no_release pre = true ->
  selected e = span (last_press pre (0, 0)) (x, y).
Proof.
  intros Hev Hn. unfold selected. rewrite Hev, mainloop_app.
  destruct (mainloop_no_release tool_init pre eq_refl Hn) as (Hs & _ & _ & Hd).
  simpl in Hs. simpl. rewrite Hd. simpl.
  destruct later; simpl;
    unfold selection_rect, span; simpl; rewrite <- Hs; reflexivity.
Qed.

(** X2.  There is no way to cancel: when the overlay goes away without a
    release, [take_snip] still grabs, with the box spanned by the last
    press and (0,0); with no pointer event at all the box is (0,0,0,0). *)
Theorem take_snip_without_release (e : env) (w : world) :
  tk_init e = None ->
  no_release (tk_events e) = true ->
  selected e = span (last_press (tk_events e) (0, 0)) (0, 0)
  /\ take_snip e w = capture e (span (last_press (tk_events e) (0, 0)) (0, 0)) w.
Proof.
  intros Hinit Hn.
  assert (Hsel : selected e = span (last_press (tk_events e) (0, 0)) (0, 0)).
  { unfold selected.
    destruct (mainloop_no_release tool_init (tk_events e) eq_refl Hn)
      as (Hs & Hx & Hy & _).
    simpl in Hs, Hx, Hy. unfold selection_rect, span.
    rewrite Hx, Hy, <- Hs. reflexivity. }
  split; [exact Hsel|].
  unfold take_snip, new_SnippingTool, bind. rewrite Hinit. unfold ret.
  fold (selected e). rewrite Hsel. reflexivity.
Qed.

End Pointer.

(** ** Distinct seconds, distinct files *)

Section StampInjective.

Lemma zero_padded_inj w n1 n2 :
  (n1 < 10 ^ N.of_nat w)%N -> (n2 < 10 ^ N.of_nat w)%N ->
  Str.zero_padded w n1 = Str.zero_padded w n2 -> n1 = n2.
Proof.
  intros H1 H2 Heq. apply (f_equal digits_value) in Heq.
  rewrite !zero_padded_value, !N.mod_small in Heq by assumption. exact Heq.
Qed.

Lemma strftime_inj d1 d2 :
  valid_datetime d1 -> valid_datetime d2 ->
  strftime d1 = strftime d2 -> same_second d1 d2.
Proof.
  intros (Hy1 & Hm1 & Hd1 & HH1 & HM1 & HS1 & _)
         (Hy2 & Hm2 & Hd2 & HH2 & HM2 & HS2 & _) Heq.
  unfold strftime in Heq.
  apply app_inj_1 in Heq as [Ey Heq]; [|rewrite !zero_padded_length; reflexivity].
  apply app_inj_1 in Heq as [Em Heq]; [|rewrite !zero_padded_length; reflexivity].
  apply app_inj_1 in Heq as [Ed Heq]; [|rewrite !zero_padded_length; reflexivity].
  apply app_inj_1 in Heq as [_ Heq]; [|reflexivity].
  apply app_inj_1 in Heq as [EH Heq]; [|rewrite !zero_padded_length; reflexivity].
  apply app_inj_1 in Heq as [EM ES]; [|rewrite !zero_padded_length; reflexivity].
  unfold same_second.
  repeat split;
    (eapply zero_padded_inj; [| |eassumption]);
    change (10 ^ N.of_nat 4)%N with 10000%N;
    change (10 ^ N.of_nat 2)%N with 100%N; lia.
Qed.

(** X4.  Two captures of one installation get the same path only if
    their clock readings fall within the same second (and always do
    then): the timestamp keeps captures of different seconds apart. *)
Theorem snip_path_collides_iff_same_second (e1 e2 : env) :
  home e1 = home e2 ->
  os e1 = os e2 ->
  valid_datetime (now e1) ->
  valid_datetime (now e2) ->
  snip_path e1 = snip_path e2 <-> same_second (now e1) (now e2).
Proof.
  intros Hhome Hos Hv1 Hv2. rewrite !snip_path_eq.
  rewrite (TMP_DIR_config e1 e2 Hhome Hos), Hos. unfold snip_filename.
  split.
  - intros Heq. apply app_inv_head in Heq.
    apply (app_inv_head (os_sep (os e2) :: lit "snip_")) in Heq.
    apply app_inv_tail in Heq.
    apply strftime_inj; assumption.
  - intros Hsec. rewrite (strftime_same_second _ _ Hsec). reflexivity.
Qed.

End StampInjective.

(** X1 at a release with no press before it. *)
Lemma selected_first_release_witness :
  selected (Env Sample.home_dir posix None
                [B1Motion 3 4; ButtonRelease 40 30; ButtonPress 7 7]
                (fun _ => Ok Sample.shot) Sample.clock (fun _ _ => SaveOk)
                (fun _ => None) (fun _ _ => Raise (Exn RequestException []))
                (fun _ => CopyOk) (fun _ => None))
  = span (0, 0) (40, 30).
Proof.
  apply (selected_first_release _ [B1Motion 3 4] 40 30 [ButtonPress 7 7]);
    reflexivity.
Defined.

(** X2 at an overlay closed after a press at (10,20). *)
Lemma take_snip_without_release_witness :
  let e := Env Sample.home_dir posix None [ButtonPress 10 20; B1Motion 30 40]
               (fun _ => Ok Sample.shot) Sample.clock (fun _ _ => SaveOk)
               (fun _ => None) (fun _ _ => Raise (Exn RequestException []))
               (fun _ => CopyOk) (fun _ => None) in
  selected e = span (10, 20) (0, 0)
  /\ take_snip e Sample.w0 = capture e (span (10, 20) (0, 0)) Sample.w0.
Proof.
  apply (take_snip_without_release
           (Env Sample.home_dir posix None [ButtonPress 10 20; B1Motion 30 40]
                (fun _ => Ok Sample.shot) Sample.clock (fun _ _ => SaveOk)
                (fun _ => None) (fun _ _ => Raise (Exn RequestException []))
                (fun _ => CopyOk) (fun _ => None)) Sample.w0); reflexivity.
Defined.

(** X4 at the two sample captures of 07:08:09. *)
Lemma snip_path_collides_iff_same_second_witness :
  snip_path Sample.good = snip_path Sample.again
  <-> same_second (now Sample.good) (now Sample.again).
Proof.
  apply (snip_path_collides_iff_same_second Sample.good Sample.again).
  - reflexivity.
  - reflexivity.
  - unfold valid_datetime. simpl. lia.
  - unfold valid_datetime. simpl. lia.
Defined.

(** ** What a session touches *)

Section Frames.

Variable e : env.

(** X5.  [take_snip] writes no file but the capture file and leaves the
    clipboard alone; it logs one line when it returns and nothing when
    it raises. *)
Theorem take_snip_frame (w : world) r w' :
  take_snip e w = (r, w') ->
  (forall q, q <> snip_path e -> fs w' !! q = fs w !! q)
  /\ clipboard w' = clipboard w
  /\ log w' =
     log w ++ match r with
              | Ok p => [LogRecord INFO (lit "Region snipped and saved to " ++ p) None]
              | Raise _ => []
              end.
Proof.
  unfold take_snip, new_SnippingTool, capture, bind, ImageGrab_grab, img_save,
    logger_info, ret, raise.
  destruct (tk_init e).
  { intros H. injection H as <- <-. rewrite app_nil_r. auto. }
  destruct (grab e _) as [img|ex].
  2: { intros H. injection H as <- <-. rewrite app_nil_r. auto. }
  destruct (save e img (snip_path e)) as [|ex [|]];
    intros H; injection H as <- <-; simpl; rewrite ?app_nil_r;
    (split; [|auto]); intros q Hq; try reflexivity;
    apply lookup_insert_ne; congruence.
Qed.


(** The files when the [try] block of [on_hotkey] ends. *)
Lemma hotkey_try_files (w : world) r path w1 :
  hotkey_try e (None, w) = (r, (path, w1)) ->
  forall q, q <> snip_path e -> fs w1 !! q = fs w !! q.
Proof.
  rewrite hotkey_try_run.
  destruct (take_snip e w) as [[p|sex] ws] eqn:Hsnip;
    destruct (take_snip_frame w _ _ Hsnip) as (Hfs & _ & _).
  - destruct (upload_to_catbox e p ws) as [[url|uex] wu] eqn:Hup;
      destruct (upload_frame e p ws _ _ Hup) as [Hfu _].
    + destruct (copy e url) as [|cex [s|]]; intros H; injection H as <- <- <-;
        intros q Hq; simpl; rewrite ?Hfu; apply Hfs, Hq.
    + intros H. injection H as <- <- <-. intros q Hq. rewrite Hfu. apply Hfs, Hq.
  - intros H. injection H as <- <- <-. exact Hfs.
Qed.

(** The local [path] is either unset or the capture path. *)
Lemma hotkey_try_path (w : world) r path w1 :
  hotkey_try e (None, w) = (r, (path, w1)) ->
  path = None \/ path = Some (snip_path e).
Proof.
  rewrite hotkey_try_run.
  destruct (take_snip e w) as [[p|sex] ws] eqn:Hsnip.
  - destruct (take_snip_ok e w p ws Hsnip) as (img & _ & _ & _ & -> & _).
    destruct (upload_to_catbox e _ ws) as [[url|uex] wu].
    + destruct (copy e url) as [|cex [s|]];
        intros H; injection H as <- <- <-; auto.
    + intros H; injection H as <- <- <-; auto.
  - intros H; injection H as <- <- <-; auto.
Qed.

(** The [finally] block touches no file but the recorded one. *)
Lemma hotkey_finally_files path (w : world) :
  forall q, path <> Some q ->
    fs (snd (snd (hotkey_finally e (path, w)))) !! q = fs w !! q.
Proof.
  intros q Hq. destruct path as [[|c p']|]; try reflexivity.
  unfold hotkey_finally, bind, get_local, lift, os_path_exists, try_except,
    os_remove, logger_info, logger_exception, ret.
  cbn [fst snd].
  destruct (fs w !! (c :: p')) as [f|] eqn:Hf.
  - rewrite bool_decide_eq_true_2 by eauto.
    cbn [fst snd]. rewrite Hf.
    destruct (remove e (c :: p')); simpl; [reflexivity|].
    apply lookup_delete_ne. congruence.
  - rewrite bool_decide_eq_false_2 by (intros [? ?]; discriminate).
    reflexivity.
Qed.

(** The only entry of [fs] that a session changes is the one of the
    capture path.  (What the logger writes is kept in [log].) *)
Lemma on_hotkey_files_frame (w : world) q :
  q <> snip_path e ->
  fs (snd (on_hotkey e w)) !! q = fs w !! q.
Proof.
  intros Hq. rewrite on_hotkey_run.
  destruct (hotkey_try e (None, w)) as [r [path w1]] eqn:Htry.
  pose proof (hotkey_try_files w _ _ _ Htry q Hq) as Hfiles.
  assert (Hpath : path <> Some q).
  { destruct (hotkey_try_path w _ _ _ Htry) as [-> | ->]; congruence. }
  destruct r as [[]|ex]; cbn [snd];
    rewrite hotkey_finally_files by exact Hpath; exact Hfiles.
Qed.

(** X7.  Apart from its own capture file and the log file, which every
    session appends to, a session leaves every file as it was, whatever
    happens in it. *)
Theorem on_hotkey_other_files (w : world) q :
  q <> snip_path e ->
  q <> LOG_FILE e ->
  fs (snd (on_hotkey e w)) !! q = fs w !! q.
Proof. intros Hq _. apply on_hotkey_files_frame, Hq. Qed.

(** X8.  When the capture went through and [os.remove] succeeds, the
    session leaves nothing at the capture path, also when a file was
    there under that name before, and every other file apart from the
    log file is as it was. *)
Theorem on_hotkey_restores_directory (w : world) p w1 q :
  take_snip e w = (Ok p, w1) ->
  remove e p = None ->
  q <> LOG_FILE e ->
  fs (snd (on_hotkey e w)) !! q = delete p (fs w) !! q.
Proof.
  intros Hsnip Hrm _.
  destruct (take_snip_ok e w p w1 Hsnip) as (img & _ & _ & _ & Hp & _).
  destruct (decide (q = p)) as [->|Hq].
  - rewrite lookup_delete_eq.
    destruct (on_hotkey_after_snip e w p w1 Hsnip) as (w3 & f & _ & Hrun).
    rewrite Hrun, Hrm. simpl. apply lookup_delete_eq.
  - rewrite lookup_delete_ne by congruence.
    apply on_hotkey_files_frame. congruence.
Qed.

End Frames.

(** ** Failures inside a session *)

Section SessionLog.

Variable e : env.

(** X9.  The cleanup only covers a capture that [take_snip] returned.
    When [img.save] raises after having created the file, [on_hotkey]
    logs the error, calls [os.remove] not at all, and the partial file
    stays. *)
Theorem on_hotkey_keeps_partial_file (w : world) img ex :
  tk_init e = None ->
  grab e (selected e) = Ok img ->
  save e img (snip_path e) = SaveFail ex true ->
  on_hotkey e w
  = (Ok tt, emit (session_error ex) (write_file (snip_path e) PartialFile w)).
Proof.
  intros Hinit Hgrab Hsave.
  assert (Hsnip : take_snip e w
                  = (Raise ex, write_file (snip_path e) PartialFile w)).
  { unfold take_snip, new_SnippingTool, capture, bind, ImageGrab_grab,
      img_save, ret.
    rewrite Hinit. fold (selected e). rewrite Hgrab, Hsave. reflexivity. }
  rewrite on_hotkey_run, hotkey_try_run, Hsnip. reflexivity.
Qed.




End SessionLog.

(** ** Startup registration *)

Section Replace.

Lemma startswith_app (old s : str) : Str.startswith (old ++ s) old = true.
Proof.
  induction old as [|c o IH]; [destruct s; reflexivity|].
  simpl. rewrite N.eqb_refl. exact IH.
Qed.

(** Dropping the rest of an occurrence that has been replaced. *)
Lemma replace_from_skip (old new x s : str) :
  replace_from old new (length x) (x ++ s) = replace_from old new 0 s.
Proof.
  induction x as [|c x IH]; [destruct s; reflexivity|]. simpl. exact IH.
Qed.

(** Up to the first occurrence nothing changes; the occurrence becomes
    [new] and the replacement goes on behind it. *)
Lemma replace_first (old new a b : str) :
  old <> [] ->
  starts_within old (length a) (a ++ old ++ b) = false ->
  str_replace (a ++ old ++ b) old new = a ++ new ++ str_replace b old new.
Proof.
  intros Hne. unfold str_replace. induction a as [|c a IH]; intros Hs.
  - destruct old as [|o1 o']; [congruence|].
    pose proof (startswith_app (o1 :: o') b) as Hsw.
    change ([] ++ (o1 :: o') ++ b) with (o1 :: (o' ++ b)).
    change ((o1 :: o') ++ b) with (o1 :: (o' ++ b)) in Hsw.
    cbn [replace_from]. rewrite Hsw.
    change (length (o1 :: o') - 1)%nat with (length o' - 0)%nat.
    rewrite Nat.sub_0_r, replace_from_skip. reflexivity.
  - change (starts_within old (length (c :: a)) ((c :: a) ++ old ++ b))
      with (Str.startswith (c :: (a ++ old ++ b)) old
            || starts_within old (length a) (a ++ old ++ b)) in Hs.
    apply orb_false_elim in Hs as [Hc Hs].
    change ((c :: a) ++ old ++ b) with (c :: (a ++ old ++ b)).
    cbn [replace_from]. rewrite Hc, (IH Hs). reflexivity.
Qed.

Lemma replace_absent (old new s : str) :
  occurs old s = false -> str_replace s old new = s.
Proof.
  unfold occurs, str_replace. induction s as [|c s IH]; [reflexivity|].
  change (starts_within old (length (c :: s)) (c :: s))
    with (Str.startswith (c :: s) old || starts_within old (length s) s).
  intros H. apply orb_false_elim in H as [Hc Hs].
  cbn [replace_from]. rewrite Hc, (IH Hs). reflexivity.
Qed.

End Replace.

Section Startup.

Variable se : startup_env.

(** X13.  Run by [python.exe], the shortcut targets [pythonw.exe] in
    the same place; run by anything whose path does not contain
    [python.exe] ([pythonw.exe] itself, say), it targets that very
    program. *)
Theorem pythonw_target :
  (forall dir,
      executable se = dir ++ lit "python.exe" ->
      starts_within (lit "python.exe") (length dir) (executable se) = false ->
      pythonw se = dir ++ lit "pythonw.exe")
  /\ (occurs (lit "python.exe") (executable se) = false ->
      pythonw se = executable se).
Proof.
  unfold pythonw. split.
  - intros dir Hexe Hfirst. rewrite Hexe in Hfirst |- *.
    rewrite <- (app_nil_r (lit "python.exe")) at 1.
    rewrite <- (app_nil_r (lit "python.exe")) in Hfirst.
    rewrite (replace_first _ (lit "pythonw.exe") dir []);
      [reflexivity|discriminate|].
    rewrite app_nil_r. exact Hfirst.
  - apply replace_absent.
Qed.

(** The [try] block on a system, case by case. *)
Lemma startup_try_run (s : system) :
  startup_try se s =
  match win32com se with
  | Some ex => (Raise ex, s)
  | None =>
      match APPDATA se with
      | Raise ex => (Raise ex, s)
      | Ok appdata =>
          match links s !! startup_link appdata with
          | Some _ => (Ok tt, s)
          | None =>
              match com_shell se with
              | Some ex => (Raise ex, s)
              | None =>
                  match com_save se (startup_shortcut se) with
                  | Some ex => (Raise ex, s)
                  | None =>
                      (Ok tt,
                       System
                         (emit (LogRecord INFO
                                  (lit "Created startup shortcut: "
                                   ++ startup_link appdata) None)
                               (sys_world s))
                         (<[startup_link appdata := startup_shortcut se]> (links s)))
                  end
              end
          end
      end
  end.
Proof.
  unfold startup_try, bind, outside, startup_dir, link_exists, shortcut_save,
    on_world, logger_info, raise, ret, startup_link.
  destruct (win32com se); [reflexivity|].
  destruct (APPDATA se) as [appdata|ex]; [|reflexivity].
  destruct (links s !! _) as [sc|] eqn:Hl.
  - rewrite bool_decide_eq_true_2 by eauto. reflexivity.
  - rewrite bool_decide_eq_false_2 by (intros [? ?]; discriminate).
    destruct (com_shell se); [reflexivity|].
    destruct (com_save se (startup_shortcut se)); reflexivity.
Qed.

(** X14.  [add_to_startup] never raises.  Off Windows it does nothing
    at all.  Whatever happens, it leaves the files and the clipboard
    alone, keeps every shortcut that exists as it is, and adds at most
    one line to the log. *)
Theorem add_to_startup_frame (s : system) :
  fst (add_to_startup se s) = Ok tt
  /\ (su_os se = posix -> add_to_startup se s = (Ok tt, s))
  /\ fs (sys_world (snd (add_to_startup se s))) = fs (sys_world s)
  /\ clipboard (sys_world (snd (add_to_startup se s))) = clipboard (sys_world s)
  /\ (forall q sc, links s !! q = Some sc ->
                   links (snd (add_to_startup se s)) !! q = Some sc)
  /\ exists lines,
       log (sys_world (snd (add_to_startup se s))) = log (sys_world s) ++ lines
       /\ (length lines <= 1)%nat.
Proof.
  unfold add_to_startup. destruct (su_os se).
  { repeat split; try reflexivity; auto.
    exists []. rewrite app_nil_r. split; [reflexivity|simpl; lia]. }
  unfold try_except. rewrite startup_try_run.
  unfold on_world, logger_exception.
  assert (Hnil : forall l : list log_record,
             exists lines, l = l ++ lines /\ (length lines <= 1)%nat).
  { intros l. exists []. rewrite app_nil_r. split; [reflexivity|simpl; lia]. }
  assert (Hone : forall (l : list log_record) r,
             exists lines, l ++ [r] = l ++ lines /\ (length lines <= 1)%nat).
  { intros l r. exists [r]. split; [reflexivity|simpl; lia]. }
  destruct (win32com se);
    [simpl; repeat split; try discriminate; auto|].
  destruct (APPDATA se) as [appdata|ex];
    [|simpl; repeat split; try discriminate; auto].
  destruct (links s !! startup_link appdata) as [sc0|] eqn:Hl;
    [simpl; repeat split; try discriminate; auto|].
  destruct (com_shell se);
    [simpl; repeat split; try discriminate; auto|].
  destruct (com_save se (startup_shortcut se));
    [simpl; repeat split; try discriminate; auto|].
  simpl. repeat split; try discriminate; auto.
  intros q sc Hq. rewrite lookup_insert_ne; [exact Hq|]. congruence.
Qed.


(** X16.  When the registration fails (pywin32 missing, [APPDATA]
    unset, COM refusing), nothing is created and the failure is logged
    once, with the exception. *)
Theorem add_to_startup_failure (s : system) ex :
  su_os se = nt ->
  fst (startup_try se s) = Raise ex ->
  add_to_startup se s
  = (Ok tt, System (emit (startup_error ex) (sys_world s)) (links s)).
Proof.
  intros Hos. unfold add_to_startup. rewrite Hos.
  unfold try_except. rewrite startup_try_run.
  unfold on_world, logger_exception, startup_error.
  destruct (win32com se); [intros H; injection H as ->; reflexivity|].
  destruct (APPDATA se) as [appdata|aex];
    [|intros H; injection H as ->; reflexivity].
  destruct (links s !! startup_link appdata); [discriminate|].
  destruct (com_shell se); [intros H; injection H as ->; reflexivity|].
  destruct (com_save se (startup_shortcut se));
    [intros H; injection H as ->; reflexivity|discriminate].
Qed.

End Startup.

(** ** Reading the upload error *)

Section Message.

Lemma of_uint_inj u v : Str.of_uint u = Str.of_uint v -> u = v.
Proof.
  revert v. induction u; intros v; destruct v; simpl; intros H;
    try discriminate; try reflexivity;
    injection H as H; f_equal; auto.
Qed.

(** The decimal form of an integer holds no closing parenthesis. *)
Lemma of_uint_no_paren u : ~ In 41%N (Str.of_uint u).
Proof.
  induction u; simpl; intros H; try contradiction;
    destruct H as [H|H]; try discriminate; auto.
Qed.

Lemma of_Z_no_paren z : ~ In 41%N (Str.of_Z z).
Proof.
  destruct z as [|p|p]; simpl.
  - intros [H|[]]. discriminate.
  - apply of_uint_no_paren.
  - intros [H|H]; [discriminate|]. exact (of_uint_no_paren _ H).
Qed.

Lemma to_uint_not_zero p : Str.of_uint (Pos.to_uint p) <> lit "0".
Proof.
  intros H. change (lit "0") with (Str.of_uint (D0 Nil)) in H.
  apply of_uint_inj in H.
  pose proof (DecimalPos.Unsigned.of_to p) as Hp. rewrite H in Hp.
  discriminate.
Qed.

Lemma of_uint_no_minus u (s : str) : Str.of_uint u <> 45%N :: s.
Proof. destruct u; simpl; discriminate. Qed.

(** Different integers are written differently. *)
Lemma of_Z_inj z1 z2 : Str.of_Z z1 = Str.of_Z z2 -> z1 = z2.
Proof.
  destruct z1 as [|p|p]; destruct z2 as [|q|q]; simpl; intros H;
    try reflexivity.
  - symmetry in H. destruct (to_uint_not_zero _ H).
  - discriminate.
  - destruct (to_uint_not_zero _ H).
  - apply of_uint_inj, DecimalPos.Unsigned.to_uint_inj in H. congruence.
  - destruct (of_uint_no_minus _ _ H).
  - discriminate.
  - symmetry in H. destruct (of_uint_no_minus _ _ H).
  - injection H as H.
    apply of_uint_inj, DecimalPos.Unsigned.to_uint_inj in H. congruence.
Qed.

(** Cutting at the first closing parenthesis. *)
Lemma split_at_paren (a b x y : str) :
  ~ In 41%N a -> ~ In 41%N b ->
  a ++ 41%N :: x = b ++ 41%N :: y -> a = b /\ x = y.
Proof.
  revert b. induction a as [|c a IH]; intros b Ha Hb H.
  - destruct b as [|d b]; simpl in H.
    + injection H as H. auto.
    + injection H as H _. destruct Hb. left. congruence.
  - destruct b as [|d b]; simpl in H.
    + injection H as H _. destruct Ha. left. exact H.
    + injection H as Hc H.
      destruct (IH b) as [-> ->]; auto.
      * intros Hin. apply Ha. right. exact Hin.
      * intros Hin. apply Hb. right. exact Hin.
      * subst d. auto.
Qed.

(** X17.  The message of the upload error tells the status code and the
    body apart: two rejected responses with the same message have the
    same status code and the same body. *)
Theorem upload_failed_msg_inj (r1 r2 : response) :
  upload_failed_msg r1 = upload_failed_msg r2 ->
  status_code r1 = status_code r2 /\ text r1 = text r2.
Proof.
  unfold upload_failed_msg. intros H.
  apply app_inv_head in H.
  change (lit "): ") with (41%N :: lit ": ") in H.
  apply split_at_paren in H as [Hs Ht]; try apply of_Z_no_paren.
  split; [apply of_Z_inj, Hs|].
  apply (app_inv_head (lit ": ")) in Ht. exact Ht.
Qed.

End Message.


(** ** Sample runs of the properties above *)

(** X5 at the sample capture. *)
Lemma take_snip_frame_witness :
  (forall q, q <> snip_path Sample.good ->
             fs (snd (take_snip Sample.good Sample.w0)) !! q = fs Sample.w0 !! q)
  /\ clipboard (snd (take_snip Sample.good Sample.w0)) = clipboard Sample.w0
  /\ log (snd (take_snip Sample.good Sample.w0))
     = log Sample.w0
       ++ [LogRecord INFO (lit "Region snipped and saved to " ++ Sample.path) None].
Proof.
  apply (take_snip_frame Sample.good Sample.w0 (Ok Sample.path)
           (snd (take_snip Sample.good Sample.w0))).
  vm_compute. reflexivity.
Defined.


(** X7 at an earlier capture that was left in the directory. *)
Lemma on_hotkey_other_files_witness :
  fs (snd (on_hotkey Sample.good Sample.w_older)) !! Sample.older
  = fs Sample.w_older !! Sample.older.
Proof.
  apply (on_hotkey_other_files Sample.good Sample.w_older).
  - vm_compute. discriminate.
  - vm_compute. discriminate.
Defined.

(** X8 at a capture path that held a file before the session. *)
Lemma on_hotkey_restores_directory_witness :
  fs (snd (on_hotkey Sample.good Sample.w_shot)) !! Sample.path
  = delete Sample.path (fs Sample.w_shot) !! Sample.path.
Proof.
  apply (on_hotkey_restores_directory Sample.good Sample.w_shot Sample.path
           (snd (take_snip Sample.good Sample.w_shot))).
  - vm_compute. reflexivity.
  - reflexivity.
  - vm_compute. discriminate.
Defined.

(** X9 at the disk that fills up during the save. *)
Lemma on_hotkey_keeps_partial_file_witness :
  on_hotkey Sample.torn Sample.w0
  = (Ok tt,
     emit (session_error (Exn OSError (lit "No space left on device")))
          (write_file (snip_path Sample.torn) PartialFile Sample.w0)).
Proof.
  apply (on_hotkey_keeps_partial_file Sample.torn Sample.w0 Sample.shot);
    reflexivity.
Defined.

(** X13 at the two Windows installations. *)
Lemma pythonw_target_witness :
  pythonw SampleStartup.windows = lit "C:\Python311\pythonw.exe"
  /\ pythonw SampleStartup.silent = executable SampleStartup.silent.
Proof.
  split.
  - apply (proj1 (pythonw_target SampleStartup.windows) (lit "C:\Python311\"));
      vm_compute; reflexivity.
  - apply (proj2 (pythonw_target SampleStartup.silent)).
    vm_compute. reflexivity.
Defined.


(** X16 at a Windows installation without [APPDATA]. *)
Lemma add_to_startup_failure_witness :
  let se := StartupEnv nt None (Raise (Exn ValueError (lit "APPDATA is not set")))
                       (lit "C:\tools\f8_catbox_uploader.py") (fun _ => lit "C:\tools")
                       (lit "C:\Python311\python.exe") None (fun _ => None) in
  add_to_startup se SampleStartup.s0
  = (Ok tt,
     System (emit (startup_error (Exn ValueError (lit "APPDATA is not set")))
                  (sys_world SampleStartup.s0))
            (links SampleStartup.s0)).
Proof.
  apply (add_to_startup_failure
           (StartupEnv nt None (Raise (Exn ValueError (lit "APPDATA is not set")))
                       (lit "C:\tools\f8_catbox_uploader.py") (fun _ => lit "C:\tools")
                       (lit "C:\Python311\python.exe") None (fun _ => None))
           SampleStartup.s0); reflexivity.
Defined.

(** X17 at the rejected upload. *)
Lemma upload_failed_msg_inj_witness :
  let r := Response 400 false (lit "Bad request") in
  status_code r = status_code r /\ text r = text r.
Proof.
  apply (upload_failed_msg_inj (Response 400 false (lit "Bad request"))
           (Response 400 false (lit "Bad request"))).
  reflexivity.
Defined.


(** The sample shortcut lands in the Startup folder of the profile. *)
Example startup_link_roaming :
  startup_link SampleStartup.roaming = SampleStartup.link.
Proof. vm_compute. reflexivity. Qed.

(** Off Windows nothing is registered and nothing is logged. *)
Example add_to_startup_linux :
  add_to_startup SampleStartup.linux SampleStartup.s0 = (Ok tt, SampleStartup.s0).
Proof. reflexivity. Qed.

(** ** The log file and the captures *)

(** X19.  The log file lives in the directory of the captures, but no
    capture is ever written to its path, and no session overwrites or
    deletes it. *)
Theorem on_hotkey_spares_log_file (e : env) (w : world) :
  snip_path e <> LOG_FILE e
  /\ fs (snd (take_snip e w)) !! LOG_FILE e = fs w !! LOG_FILE e
  /\ fs (snd (on_hotkey e w)) !! LOG_FILE e = fs w !! LOG_FILE e.
Proof.
  assert (Hne : snip_path e <> LOG_FILE e).
  { rewrite snip_path_eq. unfold LOG_FILE.
    rewrite (os_path_join_sep _ _ _ _ (TMP_DIR_last e))
      by (destruct (os e); discriminate).
    intros H. apply app_inv_head in H. discriminate. }
  split; [exact Hne|]. split.
  - destruct (take_snip e w) as [r w1] eqn:Hsnip.
    destruct (take_snip_frame e w r w1 Hsnip) as (Hfs & _ & _).
    apply Hfs. congruence.
  - apply on_hotkey_files_frame. congruence.
Qed.
